(** * Kernelcache kext listing: a model of pkg/kernelcache/kext.go

    The Go functions of kext.go are embedded as Rocq functions.  uint64 values
    are integers of [Z] kept in [0, 2^64); byte slices are [list byte]; Go
    errors are values of [error]; a function returning [(T, error)] returns
    [result T].  The Mach-O accessor, the plist decoder and the chained-fixup
    decoder are libraries outside the package: they enter as the fields of
    [File] and as the variables of the section [Kernelcache]. *)

From Stdlib Require Import ZArith List String Ascii Strings.Byte Bool Lia.
From Stdlib Require Import DecimalString HexadecimalString.
Import ListNotations.
Open Scope Z_scope.

(** ** Machine integers *)

Module U64.
Definition modulus : Z := 2 ^ 64.
Definition wrap (z : Z) : Z := z mod modulus.
Definition add (a b : Z) : Z := wrap (a + b).
(** [int64(x)] of a uint64 [x]. *)
Definition to_int64 (z : Z) : Z :=
  if z <? 2 ^ 63 then z else z - modulus.
End U64.

Module I32.
(** The int32 read back from its 32-bit pattern. *)
Definition of_bits (z : Z) : Z :=
  if z <? 2 ^ 31 then z else z - 2 ^ 32.
End I32.

(** ** Errors and results *)

Inductive error : Type :=
| Errorf (msg : string)     (* fmt.Errorf(msg) *)
| LibError (msg : string)   (* an error handed back by go-macho or go-plist *)
| EOF                       (* io.EOF *)
| ErrUnexpectedEOF.         (* io.ErrUnexpectedEOF *)

Inductive result (A : Type) : Type :=
| Ok (a : A)
| Err (e : error).
Arguments Ok {A} a.
Arguments Err {A} e.

Definition bind {A B : Type} (r : result A) (k : A -> result B) : result B :=
  match r with
  | Ok a => k a
  | Err e => Err e
  end.

Notation "x <- r ;; k" := (bind r (fun x => k))
  (at level 61, r at next level, right associativity).

(** ** Data model *)

Definition tagPtrMask : Z := 0xffff000000000000.

(** CFBundle: the fields that the package reads or prints.  The remaining
    fields of the Go struct are descriptive strings, lists and maps filled by
    the plist decoder and read by no function of kext.go. *)
Record CFBundle : Type := {
  ID : string;
  Name : string;
  Version : string;
  OSKernelResource : bool;
  ModuleIndex : Z
}.

Record PrelinkInfo : Type := {
  PrelinkInfoDictionary : list CFBundle
}.

Module Kmod.
Record KmodInfoT : Type := {
  NextAddr : Z;
  InfoVersion : Z;
  ID : Z;
  Name : list byte;
  Version : list byte;
  ReferenceCount : Z;
  ReferenceListAddr : Z;
  Address : Z;
  Size : Z;
  HeaderSize : Z;
  StartAddr : Z;
  StopAddr : Z
}.
End Kmod.
Import Kmod (KmodInfoT).

(** ** The Mach-O accessor (go-macho) *)

(** A section header with its contents: [Size] is the size field of the
    header, [Data] what [Section.Data()] returns. *)
Record MSection : Type := {
  Size : Z;
  Data : result (list byte)
}.

(** An opened [*macho.File].  [ReadAt n off] stands for [m.ReadAt(p, off)] on
    a buffer [p] of [n] bytes: it gives the bytes stored at the front of [p]
    and the error, if any. *)
Record File : Type := {
  FSection : string -> string -> option MSection;
  GetOffset : Z -> result Z;
  ReadAt : nat -> Z -> list byte * option error;
  GetCString : Z -> result string;
  GetBaseAddress : Z
}.

(** ** encoding/binary, little endian *)

Definition byte_val (b : byte) : Z := Z.of_N (Byte.to_N b).

Fixpoint le_uint (bs : list byte) : Z :=
  match bs with
  | [] => 0
  | b :: rest => byte_val b + 256 * le_uint rest
  end.

(** The field of [w] bytes at byte offset [off]. *)
Definition field (off w : nat) (bs : list byte) : list byte :=
  firstn w (skipn off bs).

Fixpoint le_words (n : nat) (bs : list byte) : list Z :=
  match n with
  | O => []
  | S k => le_uint (firstn 8 bs) :: le_words k (skipn 8 bs)
  end.

(** [io.ReadFull] of [size] bytes from [bytes.NewReader(data)]. *)
Definition ReadFull (data : list byte) (size : nat) : result (list byte) :=
  if (size =? 0)%nat then Ok []
  else if (List.length data =? 0)%nat then Err EOF
  else if (List.length data <? size)%nat then Err ErrUnexpectedEOF
  else Ok (firstn size data).

(** [binary.Read(bytes.NewReader(data), binary.LittleEndian, &ptrs)] for
    [ptrs] a slice of [n] uint64. *)
Definition binary_Read_uint64s (data : list byte) (n : nat) : result (list Z) :=
  buf <- ReadFull data (8 * n) ;;
  Ok (le_words n buf).

(** [binary.Size(KmodInfoT{})]: the fields are packed without padding. *)
Definition KmodInfoT_size : nat := 196.

Definition decode_KmodInfoT (bs : list byte) : KmodInfoT :=
  {| Kmod.NextAddr := le_uint (field 0 8 bs);
     Kmod.InfoVersion := I32.of_bits (le_uint (field 8 4 bs));
     Kmod.ID := le_uint (field 12 4 bs);
     Kmod.Name := field 16 64 bs;
     Kmod.Version := field 80 64 bs;
     Kmod.ReferenceCount := I32.of_bits (le_uint (field 144 4 bs));
     Kmod.ReferenceListAddr := le_uint (field 148 8 bs);
     Kmod.Address := le_uint (field 156 8 bs);
     Kmod.Size := le_uint (field 164 8 bs);
     Kmod.HeaderSize := le_uint (field 172 8 bs);
     Kmod.StartAddr := le_uint (field 180 8 bs);
     Kmod.StopAddr := le_uint (field 188 8 bs) |}.

(** [binary.Read(bytes.NewReader(infoBytes), binary.LittleEndian, &info)]. *)
Definition binary_Read_KmodInfoT (infoBytes : list byte) : result KmodInfoT :=
  buf <- ReadFull infoBytes KmodInfoT_size ;;
  Ok (decode_KmodInfoT buf).

(** ** Tagged pointers *)

Definition getTag (ptr : Z) : Z := Z.shiftr ptr 48.

Definition unTag (ptr : Z) : Z :=
  Z.lor (Z.land ptr (Z.shiftl 1 48 - 1)) (Z.shiftl 0xffff 48).

(** ** Printed output and outcomes *)

(** A line written to standard output by [KextList], kept as the arguments of
    the call that prints it. *)
Inductive printed : Type :=
| Println_FOUND (n : nat)                        (* fmt.Println("FOUND:", n) *)
| Printf_kext (addr : Z) (id version : string).  (* fmt.Printf("%#x: %s (%s)\n", ...) *)

Definition newline : string := String (ascii_of_nat 10) EmptyString.

Definition render (p : printed) : string :=
  match p with
  | Println_FOUND n =>
      "FOUND: " ++ DecimalString.NilZero.string_of_uint (Nat.to_uint n) ++ newline
  | Printf_kext addr id version =>
      "0x" ++ HexadecimalString.NilZero.string_of_uint (N.to_hex_uint (Z.to_N addr))
           ++ ": " ++ id ++ " (" ++ version ++ ")" ++ newline
  end%string.

(** A run-time panic of the Go runtime. *)
Inductive panic : Type :=
| IndexOutOfRange (index : Z) (len : nat).  (* index out of range [index] with length len *)

(** How a call of a function of type [func(...) error] ends. *)
Inductive outcome : Type :=
| Returned (err : option error)
| Panicked (p : panic).

(** [s[i]] for a uint64 index: [None] is the bounds-check failure. *)
Definition index {A : Type} (s : list A) (i : Z) : option A :=
  if i <? 0 then None else nth_error s (Z.to_nat i).

(** [bytes.Trim(data, "\x00")]. *)
Fixpoint trimLeft0 (bs : list byte) : list byte :=
  match bs with
  | x00 :: rest => trimLeft0 rest
  | _ => bs
  end.

Definition bytes_Trim0 (data : list byte) : list byte :=
  rev (trimLeft0 (rev (trimLeft0 data))).

(** ** The functions of kext.go *)

(** The three statements that every reader of a packed pointer array repeats
    (lines 96-103, 112-119 and 152-159): [sec.Data()], a slice of
    [sec.Size/8] uint64, and [binary.Read] into it. *)
Definition readPtrs (sec : MSection) : result (list Z) :=
  data <- Data sec ;;
  binary_Read_uint64s data (Z.to_nat (Size sec / 8)).

Definition getKextStartVMAddrs (m : File) : result (list Z) :=
  match FSection m "__PRELINK_INFO" "__kmod_start" with
  | Some kmodStart => readPtrs kmodStart
  | None => Err (Errorf "section __PRELINK_INFO.__kmod_start not found")
  end.

(** The buffer [infoBytes] after [m.ReadAt(infoBytes, off)]: [n] zero bytes
    overwritten from the front by what was read. *)
Definition fill (n : nat) (got : list byte) : list byte :=
  firstn n (got ++ repeat x00 n).

(** The loop of [GetSandboxOpts] from the state ([found], [bcOpts]). *)
Fixpoint sandboxLoop (m : File) (ptrs : list Z) (found : bool)
    (bcOpts : list string) : list string :=
  match ptrs with
  | [] => bcOpts
  | ptr :: rest =>
      if ptr =? 0 then sandboxLoop m rest found bcOpts
      else
        match GetCString m (Z.lor ptr tagPtrMask) with
        | Err _ =>
            if found then bcOpts else sandboxLoop m rest found bcOpts
        | Ok str =>
            let found := if String.eqb str "default" then true else found in
            if found then
              let bcOpts := bcOpts ++ [str] in
              if negb (getTag ptr =? 0x17) then bcOpts
              else sandboxLoop m rest found bcOpts
            else sandboxLoop m rest found bcOpts
        end
  end.

Definition GetSandboxOpts (m : File) : result (list string) :=
  match FSection m "__DATA_CONST" "__const" with
  | Some dconst =>
      ptrs <- readPtrs dconst ;;
      Ok (sandboxLoop m ptrs false [])
  | None => Ok []
  end.

(** One pass through the body of the loop of [KextList]: the line printed for
    [bundle], or the panic of the slice index. *)
Definition printBundle (kextStartAdddrs : list Z) (bundle : CFBundle)
    : printed + panic :=
  if negb (OSKernelResource bundle) then
    match index kextStartAdddrs (ModuleIndex bundle) with
    | None =>
        inr (IndexOutOfRange (ModuleIndex bundle) (List.length kextStartAdddrs))
    | Some a =>
        inl (Printf_kext (Z.lor a tagPtrMask) (ID bundle) (Version bundle))
    end
  else inl (Printf_kext 0 (ID bundle) (Version bundle)).

(** The loop of [KextList] over the decoded bundles: the lines printed and
    how the loop ends. *)
Fixpoint printBundles (kextStartAdddrs : list Z) (bundles : list CFBundle)
    : list printed * outcome :=
  match bundles with
  | [] => ([], Returned None)
  | bundle :: rest =>
      match printBundle kextStartAdddrs bundle with
      | inr p => ([], Panicked p)
      | inl line =>
          let (out, r) := printBundles kextStartAdddrs rest in
          (line :: out, r)
      end
  end.

Section Kernelcache.

(** [macho.Open]. *)
Variable Open : string -> result File.
(** [plist.NewDecoder(bytes.NewReader(b)).Decode(&prelink)]. *)
Variable plist_Decode : list byte -> result PrelinkInfo.
(** [fixupchains.DyldChainedPtr64KernelCacheRebase{Pointer: p}.Target()]. *)
Variable Target : Z -> Z.

Definition fixup (m : File) (raw : Z) : Z :=
  U64.add (Target raw) (GetBaseAddress m).

(** The loop of [getKextInfos]; [infos] is the slice built so far. *)
Fixpoint kextInfosLoop (m : File) (ptrs : list Z) (infos : list KmodInfoT)
    : result (list KmodInfoT) :=
  match ptrs with
  | [] => Ok infos
  | ptr :: rest =>
      off <- GetOffset m (Z.lor ptr tagPtrMask) ;;
      let (got, err) := ReadAt m KmodInfoT_size (U64.to_int64 off) in
      match err with
      | Some e => Err e
      | None =>
          match binary_Read_KmodInfoT (fill KmodInfoT_size got) with
          | Err _ =>
              (* "failed to read KmodInfoT at %#x: %v", off, err *)
              Err (Errorf "failed to read KmodInfoT")
          | Ok info =>
              let info :=
                {| Kmod.NextAddr := Kmod.NextAddr info;
                   Kmod.InfoVersion := Kmod.InfoVersion info;
                   Kmod.ID := Kmod.ID info;
                   Kmod.Name := Kmod.Name info;
                   Kmod.Version := Kmod.Version info;
                   Kmod.ReferenceCount := Kmod.ReferenceCount info;
                   Kmod.ReferenceListAddr := Kmod.ReferenceListAddr info;
                   Kmod.Address := Kmod.Address info;
                   Kmod.Size := Kmod.Size info;
                   Kmod.HeaderSize := Kmod.HeaderSize info;
                   Kmod.StartAddr := fixup m (Kmod.StartAddr info);
                   Kmod.StopAddr := fixup m (Kmod.StopAddr info) |} in
              kextInfosLoop m rest (infos ++ [info])
          end
      end
  end.

Definition getKextInfos (m : File) : result (list KmodInfoT) :=
  match FSection m "__PRELINK_INFO" "__kmod_info" with
  | Some kmodStart =>
      ptrs <- readPtrs kmodStart ;;
      kextInfosLoop m ptrs []
  | None => Err (Errorf "section __PRELINK_INFO.__kmod_start not found")
  end.

(** [KextList]: the lines printed, in order, and how the call ends.  The
    deferred [m.Close()] changes neither. *)
Definition KextList (kernel : string) : list printed * outcome :=
  match Open kernel with
  | Err e => ([], Returned (Some e))
  | Ok m =>
      match getKextStartVMAddrs m with
      | Err e => ([], Returned (Some e))
      | Ok kextStartAdddrs =>
          match FSection m "__PRELINK_INFO" "__info" with
          | None => ([], Returned None)
          | Some infoSec =>
              match Data infoSec with
              | Err e => ([], Returned (Some e))
              | Ok data =>
                  match plist_Decode (bytes_Trim0 data) with
                  | Err e => ([], Returned (Some e))
                  | Ok prelink =>
                      let bundles := PrelinkInfoDictionary prelink in
                      let (out, r) := printBundles kextStartAdddrs bundles in
                      (Println_FOUND (List.length bundles) :: out, r)
                  end
              end
          end
      end
  end.

End Kernelcache.


(** ** The unfinished profile scan *)

(** [bytes.HasPrefix(s, sep)]. *)
Fixpoint hasPrefix (s sep : list byte) : bool :=
  match sep, s with
  | [], _ => true
  | _ :: _, [] => false
  | x :: sep', y :: s' => Byte.eqb x y && hasPrefix s' sep'
  end.

(** [bytes.Index(s, sep)]: the offset of the first occurrence of [sep] in
    [s]; [None] stands for -1. *)
Fixpoint bytes_Index (s sep : list byte) : option nat :=
  if hasPrefix s sep then Some O
  else
    match s with
    | [] => None
    | _ :: rest => option_map S (bytes_Index rest sep)
    end.

(** The panic of a slice expression [data[index:]] with [index > len]. *)
Inductive slicePanic : Type :=
| SliceBoundsOutOfRange (index len : nat).

(** The [for] loop of [GetSandboxProfiles] from the value [index]: the value
    of [index] at the [break], or the panic of [data[index:]].  [None]: the
    loop has not ended within [fuel] passes. *)
Fixpoint profilesLoop (fuel : nat) (data : list byte) (index : nat)
    : option (nat + slicePanic) :=
  match fuel with
  | O => None
  | S k =>
      if (List.length data <? index)%nat
      then Some (inr (SliceBoundsOutOfRange index (List.length data)))
      else
        match bytes_Index (skipn index data) [x00; x80] with
        | Some found => profilesLoop k data (index + found + 1)
        | None => Some (inl index)
        end
  end.

(** [GetSandboxProfiles]: [profiles] is declared and never assigned, so a
    normal return gives the empty slice. *)
Definition GetSandboxProfiles (fuel : nat) (m : File)
    : option (result (list byte) + slicePanic) :=
  match FSection m "__TEXT" "__const" with
  | Some tConst =>
      match Data tConst with
      | Err e => Some (inl (Err e))
      | Ok data =>
          match profilesLoop fuel data 0 with
          | None => None
          | Some (inr p) => Some (inr p)
          | Some (inl _) => Some (inl (Ok []))
          end
      end
  | None => Some (inl (Ok []))
  end.

(** ** The behaviour as the specification words it *)

(** The bundle passes the bounds check of the catalog builder: it is a kernel
    resource, or its [ModuleIndex] is below the length of the address array. *)
Definition okBundle (kextStartAddrs : list Z) (b : CFBundle) : bool :=
  OSKernelResource b
  || ((0 <=? ModuleIndex b) && (ModuleIndex b <? Z.of_nat (List.length kextStartAddrs))).

(** The catalog entry of a bundle: load address 0 for a kernel resource,
    else the tagged start address at [ModuleIndex]. *)
Definition entry (kextStartAddrs : list Z) (b : CFBundle) : printed :=
  Printf_kext
    (if OSKernelResource b then 0
     else Z.lor (nth (Z.to_nat (ModuleIndex b)) kextStartAddrs 0) tagPtrMask)
    (ID b) (Version b).

(** [withTagMask(p)] and [tag(p)] as the specification defines them:
    [p | 0xFFFF000000000000] and [p >> 48]. *)
Definition withTagMask (p : Z) : Z := Z.lor p 0xFFFF000000000000.

Definition tag (p : Z) : Z := Z.shiftr p 48.

(** The run of strings collected once "default" has been seen. *)
Fixpoint collectRun (m : File) (ptrs : list Z) : list string :=
  match ptrs with
  | [] => []
  | p :: rest =>
      if p =? 0 then collectRun m rest
      else
        match GetCString m (withTagMask p) with
        | Err _ => []
        | Ok str => str :: (if tag p =? 0x17 then collectRun m rest else [])
        end
  end.

(** The walk before "default" has been seen. *)
Fixpoint scanForDefault (m : File) (ptrs : list Z) : list string :=
  match ptrs with
  | [] => []
  | p :: rest =>
      if p =? 0 then scanForDefault m rest
      else
        match GetCString m (withTagMask p) with
        | Err _ => scanForDefault m rest
        | Ok str =>
            if String.eqb str "default"
            then str :: (if tag p =? 0x17 then collectRun m rest else [])
            else scanForDefault m rest
        end
  end.

(** No non-zero entry of [ptrs] dereferences to "default". *)
Definition neverDefault (m : File) (ptrs : list Z) : Prop :=
  forall p, In p ptrs -> p <> 0 ->
    GetCString m (Z.lor p tagPtrMask) <> Ok "default"%string.

(** [KextList kernel] gets as far as its loop, with the start addresses
    [addrs] and the decoded bundles [bundles]. *)
Definition reachesLoop (Open : string -> result File)
    (plist_Decode : list byte -> result PrelinkInfo) (kernel : string)
    (addrs : list Z) (bundles : list CFBundle) : Prop :=
  exists m infoSec data prelink,
    Open kernel = Ok m /\
    getKextStartVMAddrs m = Ok addrs /\
    FSection m "__PRELINK_INFO" "__info" = Some infoSec /\
    Data infoSec = Ok data /\
    plist_Decode (bytes_Trim0 data) = Ok prelink /\
    PrelinkInfoDictionary prelink = bundles.

(** All or nothing: the call prints the header and the whole catalog and
    returns nil, or it fails having printed nothing. *)
Definition allOrNothing (r : list printed * outcome) : Prop :=
  (exists addrs bundles,
      r = (Println_FOUND (List.length bundles) :: map (entry addrs) bundles,
           Returned None)) \/
  (exists e, r = ([], Returned (Some e))) \/
  (exists p, r = ([], Panicked p)).

(** The ten fields of a record that the fixup step leaves alone agree. *)
Definition samePlainFields (a b : KmodInfoT) : Prop :=
  Kmod.NextAddr a = Kmod.NextAddr b /\
  Kmod.InfoVersion a = Kmod.InfoVersion b /\
  Kmod.ID a = Kmod.ID b /\
  Kmod.Name a = Kmod.Name b /\
  Kmod.Version a = Kmod.Version b /\
  Kmod.ReferenceCount a = Kmod.ReferenceCount b /\
  Kmod.ReferenceListAddr a = Kmod.ReferenceListAddr b /\
  Kmod.Address a = Kmod.Address b /\
  Kmod.Size a = Kmod.Size b /\
  Kmod.HeaderSize a = Kmod.HeaderSize b.

(** [info] is the record that [getKextInfos] builds for the pointer [ptr]:
    the bytes read at the offset of [ptr | tagPtrMask], decoded field by
    field, with the fixup on [StartAddr] and [StopAddr]. *)
Definition recordOf (Target : Z -> Z) (m : File) (ptr : Z) (info : KmodInfoT)
    : Prop :=
  exists off got,
    GetOffset m (Z.lor ptr tagPtrMask) = Ok off /\
    ReadAt m KmodInfoT_size (U64.to_int64 off) = (got, None) /\
    let raw := decode_KmodInfoT (fill KmodInfoT_size got) in
    samePlainFields info raw /\
    Kmod.StartAddr info = fixup Target m (Kmod.StartAddr raw) /\
    Kmod.StopAddr info = fixup Target m (Kmod.StopAddr raw).

(** The fixup step of [getKextInfos] on a decoded record. *)
Definition rebased (Target : Z -> Z) (m : File) (raw : KmodInfoT) : KmodInfoT :=
  {| Kmod.NextAddr := Kmod.NextAddr raw;
     Kmod.InfoVersion := Kmod.InfoVersion raw;
     Kmod.ID := Kmod.ID raw;
     Kmod.Name := Kmod.Name raw;
     Kmod.Version := Kmod.Version raw;
     Kmod.ReferenceCount := Kmod.ReferenceCount raw;
     Kmod.ReferenceListAddr := Kmod.ReferenceListAddr raw;
     Kmod.Address := Kmod.Address raw;
     Kmod.Size := Kmod.Size raw;
     Kmod.HeaderSize := Kmod.HeaderSize raw;
     Kmod.StartAddr := fixup Target m (Kmod.StartAddr raw);
     Kmod.StopAddr := fixup Target m (Kmod.StopAddr raw) |}.

(** Every field of the record lies in the range of its Go type. *)
Definition wellTyped (i : KmodInfoT) : Prop :=
  0 <= Kmod.NextAddr i < 2 ^ 64 /\
  - 2 ^ 31 <= Kmod.InfoVersion i < 2 ^ 31 /\
  0 <= Kmod.ID i < 2 ^ 32 /\
  List.length (Kmod.Name i) = 64%nat /\
  List.length (Kmod.Version i) = 64%nat /\
  - 2 ^ 31 <= Kmod.ReferenceCount i < 2 ^ 31 /\
  0 <= Kmod.ReferenceListAddr i < 2 ^ 64 /\
  0 <= Kmod.Address i < 2 ^ 64 /\
  0 <= Kmod.Size i < 2 ^ 64 /\
  0 <= Kmod.HeaderSize i < 2 ^ 64 /\
  0 <= Kmod.StartAddr i < 2 ^ 64 /\
  0 <= Kmod.StopAddr i < 2 ^ 64.

(** The pointer [ptr] cannot be read: its address does not map, or the read
    at its offset fails; [e] is the error. *)
Definition unreadable (m : File) (ptr : Z) (e : error) : Prop :=
  GetOffset m (Z.lor ptr tagPtrMask) = Err e \/
  exists off got,
    GetOffset m (Z.lor ptr tagPtrMask) = Ok off /\
    ReadAt m KmodInfoT_size (U64.to_int64 off) = (got, Some e).

(** ** Concrete images *)

Module Example.

Definition byte_of (z : Z) : byte :=
  match Byte.of_N (Z.to_N (z mod 256)) with
  | Some b => b
  | None => x00
  end.

Fixpoint le_bytes (w : nat) (z : Z) : list byte :=
  match w with
  | O => []
  | S k => byte_of z :: le_bytes k (z / 256)
  end.

Definition packed (ws : list Z) : list byte := flat_map (le_bytes 8) ws.

Definition section_of (bs : list byte) : MSection :=
  {| Size := Z.of_nat (List.length bs); Data := Ok bs |}.

Definition lookup {A : Type} (tbl : list (Z * A)) (k : Z) : result A :=
  match find (fun e => fst e =? k) tbl with
  | Some e => Ok (snd e)
  | None => Err (LibError "address not mapped")
  end.

Definition sections (tbl : list (string * string * MSection))
    (seg name : string) : option MSection :=
  match find (fun e => String.eqb (fst (fst e)) seg && String.eqb (snd (fst e)) name) tbl with
  | Some e => Some (snd e)
  | None => None
  end.

(** An image with the sections [secs], the C strings [strs] (by address) and
    the file contents [blobs] (by offset). *)
Definition image (secs : list (string * string * MSection))
    (strs : list (Z * string)) (offs : list (Z * Z))
    (blobs : list (Z * list byte)) : File :=
  {| FSection := sections secs;
     GetOffset := lookup offs;
     ReadAt := fun n off =>
       match lookup blobs off with
       | Ok bs => (firstn n bs, if (List.length bs <? n)%nat then Some EOF else None)
       | Err e => ([], Some e)
       end;
     GetCString := lookup strs;
     GetBaseAddress := 0xfffffff007004000 |}.

(** The plist of these images is opaque: the decoder stands for go-plist and
    gives the bundles [bundles] for any non-empty input. *)
Definition decoder (bundles : list CFBundle) (bs : list byte)
    : result PrelinkInfo :=
  match bs with
  | [] => Err (LibError "plist: empty input")
  | _ => Ok {| PrelinkInfoDictionary := bundles |}
  end.

Definition plistBytes : list byte := [x3c; x3f; x78; x6d; x6c; x00; x00; x00].

Definition kext (id version : string) (idx : Z) (kres : bool) : CFBundle :=
  {| ID := id; Name := id; Version := version;
     OSKernelResource := kres; ModuleIndex := idx |}.

(** Scenario A: one start address, one bundle at index 0. *)
Definition bundleA : CFBundle := kext "com.example.test" "1.0" 0 false.
(** Scenario B: a kernel resource with index 5. *)
Definition bundleB : CFBundle := kext "com.example.kernel" "2.0" 5 true.
(** A bundle whose index is past the one start address. *)
Definition bundleBad : CFBundle := kext "com.example.bad" "3.0" 1 false.

Definition prelinkImage : File :=
  image [("__PRELINK_INFO", "__kmod_start", section_of (packed [0x12340000]));
         ("__PRELINK_INFO", "__info", section_of plistBytes)]%string
        [] [] [].

(** The start addresses are there, the bundle directory is not. *)
Definition noInfoImage : File :=
  image [("__PRELINK_INFO", "__kmod_start", section_of (packed [0x12340000]))]%string
        [] [] [].

(** Scenario C: no section at all. *)
Definition bareImage : File := image [] [] [] [].

Definition open (m : File) (kernel : string) : result File := Ok m.

(** Scenario D: five string pointers; tag 0x17 on all but the last, 0x03 on
    the last. *)
Definition tagged (tag addr : Z) : Z := Z.lor (Z.shiftl tag 48) addr.

Definition sandboxPtrs : list Z :=
  [tagged 0x17 0x1000; tagged 0x17 0x1010; tagged 0x17 0x1020;
   tagged 0x17 0x1030; tagged 0x03 0x1040].

Definition sandboxImage : File :=
  image [("__DATA_CONST", "__const", section_of (packed sandboxPtrs))]%string
        [(Z.lor 0x1000 tagPtrMask, "foo"); (Z.lor 0x1010 tagPtrMask, "bar");
         (Z.lor 0x1020 tagPtrMask, "default"); (Z.lor 0x1030 tagPtrMask, "read");
         (Z.lor 0x1040 tagPtrMask, "write")]%string
        [] [].

(** A section of 19 bytes: two words and three bytes over. *)
Definition oddSection : MSection :=
  section_of (packed [0x12340000; 0x56780000] ++ [x01; x02; x03]).

(** One kmod_info record of 196 bytes at file offset 0x4000. *)
Definition recordBytes : list byte :=
  le_bytes 8 0 ++ le_bytes 4 1 ++ le_bytes 4 7
  ++ repeat x41 64 ++ repeat x31 64
  ++ le_bytes 4 (2 ^ 32 - 1) ++ le_bytes 8 0 ++ le_bytes 8 0x12340000
  ++ le_bytes 8 0x8000 ++ le_bytes 8 0x1000
  ++ le_bytes 8 0x8010000012345678 ++ le_bytes 8 0x8010000012345700.

Definition kmodImage : File :=
  image [("__PRELINK_INFO", "__kmod_info", section_of (packed [0x23450000]))]%string
        [] [(Z.lor 0x23450000 tagPtrMask, 0x4000)] [(0x4000, recordBytes)].

(** The target of a kernelcache rebase: its low 30 bits. *)
Definition target (p : Z) : Z := Z.land p (2 ^ 30 - 1).

(** The records that [getKextInfos] reads from [kmodImage]. *)
Definition kmodInfos : list KmodInfoT :=
  Eval vm_compute in
    match getKextInfos target kmodImage with
    | Ok infos => infos
    | Err _ => []
    end.

(** A (__TEXT, __const) section with the marker 00 80 at offsets 1, 4 and 8. *)
Definition textImage : File :=
  image [("__TEXT", "__const",
          section_of [x01; x00; x80; x02; x00; x80; x00; x00; x00; x80])]%string
        [] [] [].

(** A section whose [Data()] fails. *)
Definition brokenSection : MSection :=
  {| Size := 16; Data := Err (LibError "read failed") |}.

(** Two kmod_info pointers; only the first maps to a file offset. *)
Definition halfMappedImage : File :=
  image [("__PRELINK_INFO", "__kmod_info",
          section_of (packed [0x23450000; 0x23460000]))]%string
        [] [(Z.lor 0x23450000 tagPtrMask, 0x4000)] [(0x4000, recordBytes)].

(** The pointer maps, the file ends before the record does. *)
Definition truncatedImage : File :=
  image [("__PRELINK_INFO", "__kmod_info", section_of (packed [0x23450000]))]%string
        [] [(Z.lor 0x23450000 tagPtrMask, 0x4000)]
        [(0x4000, firstn 100 recordBytes)].

(** The "default" pointer carries tag 0x03: the run stops at once. *)
Definition stopImage : File :=
  image [("__DATA_CONST", "__const",
          section_of (packed [tagged 0x17 0x1000; 0; tagged 0x03 0x1020;
                              tagged 0x17 0x1030]))]%string
        [(Z.lor 0x1000 tagPtrMask, "foo"); (Z.lor 0x1020 tagPtrMask, "default");
         (Z.lor 0x1030 tagPtrMask, "read")]%string
        [] [].

(** [prelinkImage] with the plist padded by NUL bytes on both sides. *)
Definition paddedImage : File :=
  image [("__PRELINK_INFO", "__kmod_start", section_of (packed [0x12340000]));
         ("__PRELINK_INFO", "__info",
          section_of (repeat x00 3 ++ [x3c; x3f; x78; x6d; x6c] ++ repeat x00 11))]%string
        [] [] [].

(** [prelinkImage] with a kmod_info section and C strings added. *)
Definition richImage : File :=
  image [("__PRELINK_INFO", "__kmod_start", section_of (packed [0x12340000]));
         ("__PRELINK_INFO", "__info", section_of plistBytes);
         ("__PRELINK_INFO", "__kmod_info", section_of (packed [0x23450000]))]%string
        [(Z.lor 0x1000 tagPtrMask, "foo")]%string
        [(Z.lor 0x23450000 tagPtrMask, 0x4000)] [(0x4000, recordBytes)].

(** The (__DATA_CONST, __const) section cannot be read. *)
Definition brokenConstImage : File :=
  image [("__DATA_CONST", "__const", brokenSection)]%string [] [] [].

(** A plist decoder that rejects its input. *)
Definition failingDecoder (bs : list byte) : result PrelinkInfo :=
  Err (LibError "plist: invalid").

(** Three start addresses; the bundles refer to them out of order. *)
Definition bundleC : CFBundle := kext "com.example.c" "1.2" 2 false.
Definition bundleD : CFBundle := kext "com.example.d" "1.1" 1 false.

Definition threeAddrImage : File :=
  image [("__PRELINK_INFO", "__kmod_start",
          section_of (packed [0x10000; 0x20000; 0x30000]));
         ("__PRELINK_INFO", "__info", section_of plistBytes)]%string
        [] [] [].

(** A run that stops in the middle of the array: "foo", a zero entry, a
    pointer that does not dereference, "default" (tag 0x17), "read" (tag
    0x03), "write" (tag 0x17). *)
Definition chainPtrs : list Z :=
  [0x0017000000001000; 0; 0x0017000000001008; 0x0017000000001020;
   0x0003000000001030; 0x0017000000001040].

Definition chainImage : File :=
  image [("__DATA_CONST", "__const", section_of (packed chainPtrs))]%string
        [(0xFFFF000000001000, "foo"); (0xFFFF000000001020, "default");
         (0xFFFF000000001030, "read"); (0xFFFF000000001040, "write")]%string
        [] [].

End Example.

(** * Properties *)

(** ** The printed form of a line *)

Example render_scenario_A :
  render (Printf_kext 0xFFFF000012340000 "com.example.test" "1.0")
  = ("0xffff000012340000: com.example.test (1.0)" ++ newline)%string.
Proof. reflexivity. Qed.

Example render_kernel_resource :
  render (Printf_kext 0 "com.example.kernel" "2.0")
  = ("0x0: com.example.kernel (2.0)" ++ newline)%string.
Proof. reflexivity. Qed.

(** ** Tagged pointers *)

Lemma unTag_testbit (q n : Z) :
  0 <= n ->
  Z.testbit (unTag q) n = if n <? 48 then Z.testbit q n else n <? 64.
Proof.
  intros Hn. unfold unTag.
  change (Z.shiftl 1 48 - 1) with (Z.ones 48).
  change 0xffff with (Z.ones 16).
  rewrite Z.lor_spec, Z.land_spec.
  destruct (Z.ltb_spec n 48) as [Hlt | Hge].
  - rewrite Z.ones_spec_low, Z.shiftl_spec_low by lia.
    now rewrite andb_true_r, orb_false_r.
  - rewrite Z.ones_spec_high, andb_false_r by lia. cbn [orb].
    rewrite Z.shiftl_spec by lia.
    destruct (Z.ltb_spec n 64).
    + apply Z.ones_spec_low; lia.
    + apply Z.ones_spec_high; lia.
Qed.

Lemma tagPtrMask_testbit (n : Z) :
  0 <= n -> Z.testbit tagPtrMask n = (48 <=? n) && (n <? 64).
Proof.
  intros Hn. change tagPtrMask with (Z.shiftl (Z.ones 16) 48).
  destruct (Z.leb_spec 48 n) as [Hge | Hlt].
  - rewrite Z.shiftl_spec by lia. cbn [andb].
    destruct (Z.ltb_spec n 64).
    + apply Z.ones_spec_low; lia.
    + apply Z.ones_spec_high; lia.
  - now rewrite Z.shiftl_spec_low by lia.
Qed.

(** C8: for a 64-bit [p] whose top 16 bits are zero, [unTag (p | tagPtrMask)]
    has its top 16 bits all ones ([getTag] gives 0xffff) and its low 48 bits
    are the low 48 bits of [p]. *)
Theorem unTag_withTagMask (p : Z) :
  0 <= p < 2 ^ 64 ->
  getTag p = 0 ->
  getTag (unTag (Z.lor p tagPtrMask)) = 0xffff /\
  Z.land (unTag (Z.lor p tagPtrMask)) (2 ^ 48 - 1) = Z.land p (2 ^ 48 - 1).
Proof.
  intros _ _. split.
  - unfold getTag. apply Z.bits_inj'. intros n Hn.
    rewrite Z.shiftr_spec, unTag_testbit by lia.
    change 0xffff with (Z.ones 16).
    destruct (Z.ltb_spec (n + 48) 48); [lia |].
    destruct (Z.ltb_spec (n + 48) 64).
    + symmetry. apply Z.ones_spec_low; lia.
    + symmetry. apply Z.ones_spec_high; lia.
  - apply Z.bits_inj'. intros n Hn.
    change (2 ^ 48 - 1) with (Z.ones 48).
    rewrite !Z.land_spec, unTag_testbit, Z.lor_spec, tagPtrMask_testbit by lia.
    destruct (Z.ltb_spec n 48).
    + destruct (Z.leb_spec 48 n); [lia |]. cbn [andb]. now rewrite orb_false_r.
    + rewrite Z.ones_spec_high by lia. now rewrite !andb_false_r.
Qed.

Lemma unTag_withTagMask_witness :
  getTag (unTag (Z.lor 0x12340000 tagPtrMask)) = 0xffff /\
  Z.land (unTag (Z.lor 0x12340000 tagPtrMask)) (2 ^ 48 - 1)
  = Z.land 0x12340000 (2 ^ 48 - 1).
Proof.
  apply (unTag_withTagMask 0x12340000); [lia | reflexivity].
Defined.

(** ** Packed pointer arrays *)

Lemma ReadFull_enough (data : list byte) (size : nat) :
  (size <= List.length data)%nat ->
  ReadFull data size = Ok (firstn size data).
Proof.
  intros Hle. unfold ReadFull.
  destruct size as [| k]; [reflexivity |].
  cbn [Nat.eqb].
  destruct (Nat.eqb_spec (List.length data) 0) as [H0 | H0]; [lia |].
  destruct (Nat.ltb_spec (List.length data) (S k)); [lia | reflexivity].
Qed.

Lemma le_words_length (n : nat) (bs : list byte) :
  List.length (le_words n bs) = n.
Proof.
  revert bs. induction n as [| k IH]; intros bs; cbn; [reflexivity |].
  now rewrite IH.
Qed.

Lemma le_words_firstn (n : nat) (bs : list byte) :
  le_words n (firstn (8 * n) bs) = le_words n bs.
Proof.
  revert bs. induction n as [| k IH]; intros bs; [reflexivity |].
  cbn [le_words].
  replace (8 * S k)%nat with (8 + 8 * k)%nat by lia.
  rewrite firstn_firstn, Nat.min_l by lia.
  rewrite skipn_firstn_comm.
  replace (8 + 8 * k - 8)%nat with (8 * k)%nat by lia.
  now rewrite IH.
Qed.

Lemma le_words_nth (n i : nat) (bs : list byte) :
  (i < n)%nat ->
  nth_error (le_words n bs) i = Some (le_uint (field (8 * i) 8 bs)).
Proof.
  revert i bs. induction n as [| k IH]; intros i bs Hi; [lia |].
  destruct i as [| j]; cbn [le_words nth_error].
  - reflexivity.
  - rewrite IH by lia. unfold field.
    replace (8 * S j)%nat with (8 * j + 8)%nat by lia.
    now rewrite skipn_skipn.
Qed.

Lemma readPtrs_floor (sec : MSection) (data : list byte) :
  Data sec = Ok data ->
  (8 * Z.to_nat (Size sec / 8) <= List.length data)%nat ->
  readPtrs sec = Ok (le_words (Z.to_nat (Size sec / 8)) data).
Proof.
  intros Hd Hlen. unfold readPtrs, binary_Read_uint64s.
  rewrite Hd. cbn [bind].
  rewrite ReadFull_enough by exact Hlen. cbn [bind].
  now rewrite le_words_firstn.
Qed.


(** C10: each packed pointer array holds exactly [Size / 8] (rounded down)
    little-endian 8-byte words of the section data, the [i]-th word read from
    the bytes at offset [8 * i]; bytes past the last whole word are ignored
    and cause no error.  This is what [getKextStartVMAddrs] returns and what
    the loops of [getKextInfos] and [GetSandboxOpts] walk. *)
Theorem packed_array_floor (sec : MSection) (data : list byte) :
  Data sec = Ok data ->
  (8 * Z.to_nat (Size sec / 8) <= List.length data)%nat ->
  let n := Z.to_nat (Size sec / 8) in
  let ptrs := le_words n data in
  readPtrs sec = Ok ptrs /\
  List.length ptrs = n /\
  (forall i, (i < n)%nat ->
     nth_error ptrs i = Some (le_uint (field (8 * i) 8 data))) /\
  (forall m, FSection m "__PRELINK_INFO" "__kmod_start" = Some sec ->
     getKextStartVMAddrs m = Ok ptrs) /\
  (forall Target m, FSection m "__PRELINK_INFO" "__kmod_info" = Some sec ->
     getKextInfos Target m = kextInfosLoop Target m ptrs []) /\
  (forall m, FSection m "__DATA_CONST" "__const" = Some sec ->
     GetSandboxOpts m = Ok (sandboxLoop m ptrs false [])).
Proof.
  intros Hd Hlen n ptrs.
  pose proof (readPtrs_floor sec data Hd Hlen) as Hread.
  fold n in Hread. fold ptrs in Hread.
  split; [exact Hread |].
  split; [apply le_words_length |].
  split; [intros i Hi; now apply le_words_nth |].
  split; [| split].
  - intros m Hsec. unfold getKextStartVMAddrs. now rewrite Hsec.
  - intros Target m Hsec. unfold getKextInfos. now rewrite Hsec, Hread.
  - intros m Hsec. unfold GetSandboxOpts. now rewrite Hsec, Hread.
Qed.

Lemma packed_array_floor_witness :
  Size Example.oddSection = 19 /\
  readPtrs Example.oddSection = Ok [0x12340000; 0x56780000].
Proof.
  split; [reflexivity |].
  refine (proj1 (packed_array_floor Example.oddSection _ eq_refl _)).
  vm_compute. lia.
Defined.

(** ** Missing sections *)

(** C7: when the image has no section (__PRELINK_INFO, __kmod_start),
    [getKextStartVMAddrs] returns the section-not-found error and [KextList]
    returns that error having printed nothing. *)
Theorem KextList_kmod_start_missing
    (Open : string -> result File)
    (plist_Decode : list byte -> result PrelinkInfo)
    (kernel : string) (m : File) :
  Open kernel = Ok m ->
  FSection m "__PRELINK_INFO" "__kmod_start" = None ->
  getKextStartVMAddrs m
  = Err (Errorf "section __PRELINK_INFO.__kmod_start not found") /\
  KextList Open plist_Decode kernel
  = ([], Returned (Some (Errorf "section __PRELINK_INFO.__kmod_start not found"))).
Proof.
  intros Hopen Hsec.
  assert (Hget : getKextStartVMAddrs m
                 = Err (Errorf "section __PRELINK_INFO.__kmod_start not found")).
  { unfold getKextStartVMAddrs. now rewrite Hsec. }
  split; [exact Hget |].
  unfold KextList. now rewrite Hopen, Hget.
Qed.

Lemma KextList_kmod_start_missing_witness :
  KextList (Example.open Example.bareImage) (Example.decoder [Example.bundleA]) "kernelcache"
  = ([], Returned (Some (Errorf "section __PRELINK_INFO.__kmod_start not found"))).
Proof.
  refine (proj2 (KextList_kmod_start_missing _ _ "kernelcache" Example.bareImage _ _));
    reflexivity.
Defined.

(** C9: when the image has no section (__DATA_CONST, __const),
    [GetSandboxOpts] returns the empty sequence and no error. *)
Theorem GetSandboxOpts_const_missing (m : File) :
  FSection m "__DATA_CONST" "__const" = None ->
  GetSandboxOpts m = Ok [].
Proof.
  intros Hsec. unfold GetSandboxOpts. now rewrite Hsec.
Qed.

Lemma GetSandboxOpts_const_missing_witness :
  GetSandboxOpts Example.bareImage = Ok [].
Proof.
  apply (GetSandboxOpts_const_missing Example.bareImage). reflexivity.
Defined.

(** ** The sandbox-operation scanner *)

Lemma sandboxLoop_found (m : File) (ptrs : list Z) (acc : list string) :
  sandboxLoop m ptrs true acc = acc ++ collectRun m ptrs.
Proof.
  revert acc. induction ptrs as [| p rest IH]; intros acc; cbn [sandboxLoop collectRun].
  - now rewrite app_nil_r.
  - change (withTagMask p) with (Z.lor p tagPtrMask); change (tag p) with (getTag p).
    destruct (p =? 0); [apply IH |].
    destruct (GetCString m (Z.lor p tagPtrMask)) as [str | e].
    + assert (Hf : (if String.eqb str "default" then true else true) = true)
        by now destruct (String.eqb str "default").
      rewrite Hf.
      destruct (getTag p =? 23); cbn [negb].
      * rewrite IH, <- app_assoc. reflexivity.
      * reflexivity.
    + now rewrite app_nil_r.
Qed.

Lemma sandboxLoop_search (m : File) (ptrs : list Z) (acc : list string) :
  sandboxLoop m ptrs false acc = acc ++ scanForDefault m ptrs.
Proof.
  revert acc. induction ptrs as [| p rest IH]; intros acc;
    cbn [sandboxLoop scanForDefault].
  - now rewrite app_nil_r.
  - change (withTagMask p) with (Z.lor p tagPtrMask); change (tag p) with (getTag p).
    destruct (p =? 0); [apply IH |].
    destruct (GetCString m (Z.lor p tagPtrMask)) as [str | e]; [| apply IH].
    destruct (String.eqb str "default"); [| apply IH].
    destruct (getTag p =? 23); cbn [negb].
    + rewrite sandboxLoop_found, <- app_assoc. reflexivity.
    + reflexivity.
Qed.

Lemma scanForDefault_never (m : File) (ptrs : list Z) :
  neverDefault m ptrs -> scanForDefault m ptrs = [].
Proof.
  induction ptrs as [| p rest IH]; intros Hnever; cbn [scanForDefault].
  - reflexivity.
  - change (withTagMask p) with (Z.lor p tagPtrMask); change (tag p) with (getTag p).
    assert (Hrest : neverDefault m rest).
    { intros q Hq. apply Hnever. now right. }
    destruct (Z.eqb_spec p 0) as [Hz | Hnz]; [now apply IH |].
    pose proof (Hnever p (or_introl eq_refl) Hnz) as Hp.
    destruct (GetCString m (Z.lor p tagPtrMask)) as [str | e]; [| now apply IH].
    destruct (String.eqb_spec str "default") as [Heq | Hne]; [| now apply IH].
    subst str. now contradiction Hp.
Qed.

(** C5: [GetSandboxOpts] walks the pointer array of (__DATA_CONST, __const)
    in order and returns what the two-phase scan of the specification
    collects, with [tag(p) = p >> 48] and the dereference at
    [p | 0xFFFF000000000000]: zero pointers are skipped; before "default" a
    failed dereference is skipped; from "default" on each dereferenced
    string is collected, and the walk goes on past a collected entry exactly
    when its tag is 0x17, ending on any other tag or on a failed
    dereference.  The result is empty when "default" never appears. *)
Theorem GetSandboxOpts_scan (m : File) (dconst : MSection) (ptrs : list Z) :
  FSection m "__DATA_CONST" "__const" = Some dconst ->
  readPtrs dconst = Ok ptrs ->
  GetSandboxOpts m = Ok (scanForDefault m ptrs) /\
  (neverDefault m ptrs -> GetSandboxOpts m = Ok []).
Proof.
  intros Hsec Hread.
  assert (Hrun : GetSandboxOpts m = Ok (scanForDefault m ptrs)).
  { unfold GetSandboxOpts. rewrite Hsec, Hread. cbn [bind].
    now rewrite sandboxLoop_search. }
  split; [exact Hrun |].
  intros Hnever. now rewrite Hrun, scanForDefault_never.
Qed.

Lemma GetSandboxOpts_scan_witness :
  GetSandboxOpts Example.sandboxImage = Ok ["default"; "read"; "write"]%string /\
  GetSandboxOpts Example.chainImage = Ok ["default"; "read"]%string.
Proof.
  split.
  - refine (proj1 (GetSandboxOpts_scan Example.sandboxImage _
                     Example.sandboxPtrs _ _)); reflexivity.
  - refine (proj1 (GetSandboxOpts_scan Example.chainImage _
                     Example.chainPtrs _ _)); reflexivity.
Defined.

(** ** The catalog loop *)

Lemma index_in_bounds {A : Type} (s : list A) (i : Z) (d : A) :
  0 <= i < Z.of_nat (List.length s) ->
  index s i = Some (nth (Z.to_nat i) s d).
Proof.
  intros [Hlo Hhi]. unfold index.
  destruct (Z.ltb_spec i 0); [lia |].
  apply nth_error_nth'. lia.
Qed.

Lemma index_out_of_bounds {A : Type} (s : list A) (i : Z) :
  ~ 0 <= i < Z.of_nat (List.length s) ->
  index s i = None.
Proof.
  intros Hout. unfold index.
  destruct (Z.ltb_spec i 0); [reflexivity |].
  apply nth_error_None. lia.
Qed.

Lemma okBundle_true (addrs : list Z) (b : CFBundle) :
  okBundle addrs b = true <->
  OSKernelResource b = true \/
  0 <= ModuleIndex b < Z.of_nat (List.length addrs).
Proof.
  unfold okBundle. rewrite orb_true_iff, andb_true_iff, Z.leb_le, Z.ltb_lt.
  tauto.
Qed.

Lemma okBundle_false (addrs : list Z) (b : CFBundle) :
  okBundle addrs b = false <->
  OSKernelResource b = false /\
  ~ 0 <= ModuleIndex b < Z.of_nat (List.length addrs).
Proof.
  rewrite <- not_true_iff_false, okBundle_true.
  destruct (OSKernelResource b); intuition congruence.
Qed.

Lemma printBundle_ok (addrs : list Z) (b : CFBundle) :
  okBundle addrs b = true -> printBundle addrs b = inl (entry addrs b).
Proof.
  intros Hok. unfold printBundle, entry.
  destruct (OSKernelResource b) eqn:Hres; cbn [negb]; [reflexivity |].
  apply okBundle_true in Hok. destruct Hok as [Hk | Hin]; [congruence |].
  now rewrite (index_in_bounds addrs (ModuleIndex b) 0 Hin).
Qed.

Lemma printBundle_bad (addrs : list Z) (b : CFBundle) :
  okBundle addrs b = false ->
  printBundle addrs b
  = inr (IndexOutOfRange (ModuleIndex b) (List.length addrs)).
Proof.
  intros Hbad. apply okBundle_false in Hbad. destruct Hbad as [Hres Hout].
  unfold printBundle. rewrite Hres. cbn [negb].
  now rewrite (index_out_of_bounds addrs (ModuleIndex b) Hout).
Qed.

Lemma printBundles_app_ok (addrs : list Z) (pre l : list CFBundle) :
  forallb (okBundle addrs) pre = true ->
  printBundles addrs (pre ++ l)
  = (map (entry addrs) pre ++ fst (printBundles addrs l),
     snd (printBundles addrs l)).
Proof.
  induction pre as [| b pre IH]; intros Hok.
  - cbn [app map]. now destruct (printBundles addrs l).
  - cbn [forallb] in Hok. apply andb_true_iff in Hok. destruct Hok as [Hb Hpre].
    cbn [app printBundles map]. rewrite (printBundle_ok _ _ Hb), (IH Hpre).
    reflexivity.
Qed.

Lemma printBundles_cases (addrs : list Z) (l : list CFBundle) :
  (forallb (okBundle addrs) l = true /\
   printBundles addrs l = (map (entry addrs) l, Returned None)) \/
  (exists pre b post,
      l = pre ++ b :: post /\
      forallb (okBundle addrs) pre = true /\
      okBundle addrs b = false /\
      printBundles addrs l
      = (map (entry addrs) pre,
         Panicked (IndexOutOfRange (ModuleIndex b) (List.length addrs)))).
Proof.
  induction l as [| b l IH].
  - left. split; reflexivity.
  - destruct (okBundle addrs b) eqn:Hb.
    + destruct IH as [[Hall Hrun] | (pre & b' & post & Hl & Hpre & Hb' & Hrun)].
      * left. cbn [forallb printBundles map].
        rewrite Hb, (printBundle_ok _ _ Hb), Hall, Hrun. now split.
      * right. exists (b :: pre), b', post. subst l.
        cbn [forallb printBundles map app].
        rewrite Hb, (printBundle_ok _ _ Hb), Hpre, Hrun. now repeat split.
    + right. exists [], b, l. cbn [forallb printBundles map app].
      rewrite (printBundle_bad _ _ Hb). now repeat split.
Qed.

Lemma KextList_loop
    (Open : string -> result File)
    (plist_Decode : list byte -> result PrelinkInfo)
    (kernel : string) (addrs : list Z) (bundles : list CFBundle) :
  reachesLoop Open plist_Decode kernel addrs bundles ->
  KextList Open plist_Decode kernel
  = (Println_FOUND (List.length bundles) :: fst (printBundles addrs bundles),
     snd (printBundles addrs bundles)).
Proof.
  intros (m & infoSec & data & prelink & Hopen & Hget & Hsec & Hdata & Hdec & Hb).
  unfold KextList. rewrite Hopen, Hget, Hsec, Hdata, Hdec, Hb.
  now destruct (printBundles addrs bundles).
Qed.

(** C1, as stated, fails: with a bundle whose index is out of bounds after
    two that print, [KextList] panics (it returns no error value) after the
    header and the two entries have been printed. *)
Lemma KextList_index_out_of_range_prints :
  In Example.bundleBad
    [Example.bundleA; Example.bundleB; Example.bundleBad; Example.bundleA] /\
  OSKernelResource Example.bundleBad = false /\
  Z.of_nat (List.length [0x12340000]) <= ModuleIndex Example.bundleBad /\
  getKextStartVMAddrs Example.prelinkImage = Ok [0x12340000] /\
  KextList (Example.open Example.prelinkImage)
    (Example.decoder
       [Example.bundleA; Example.bundleB; Example.bundleBad; Example.bundleA])
    "kernelcache"
  = ([Println_FOUND 4;
      Printf_kext 0xFFFF000012340000 "com.example.test" "1.0";
      Printf_kext 0 "com.example.kernel" "2.0"],
     Panicked (IndexOutOfRange 1 1)) /\
  ~ allOrNothing
      (KextList (Example.open Example.prelinkImage)
         (Example.decoder
            [Example.bundleA; Example.bundleB; Example.bundleBad; Example.bundleA])
         "kernelcache").
Proof.
  split; [simpl; tauto |]. split; [reflexivity |]. split; [simpl; lia |].
  split; [reflexivity |]. split; [reflexivity |].
  intros [(addrs & bundles & H) | [(e & H) | (p & H)]]; discriminate H.
Qed.

(** C1, amended: when some decoded bundle is not a kernel resource and has
    [ModuleIndex >= len(kextStartAddrs)], [KextList] does not return: it
    panics with index out of range at the first bundle that is not a kernel
    resource and whose index is out of bounds, after it has printed the
    header and the entries of the bundles before that one, and nothing
    more. *)
Theorem KextList_index_out_of_range
    (Open : string -> result File)
    (plist_Decode : list byte -> result PrelinkInfo)
    (kernel : string) (addrs : list Z) (bundles : list CFBundle)
    (b : CFBundle) :
  reachesLoop Open plist_Decode kernel addrs bundles ->
  In b bundles ->
  OSKernelResource b = false ->
  Z.of_nat (List.length addrs) <= ModuleIndex b ->
  exists pre b' post,
    bundles = pre ++ b' :: post /\
    forallb (okBundle addrs) pre = true /\
    OSKernelResource b' = false /\
    ~ 0 <= ModuleIndex b' < Z.of_nat (List.length addrs) /\
    KextList Open plist_Decode kernel
    = (Println_FOUND (List.length bundles) :: map (entry addrs) pre,
       Panicked (IndexOutOfRange (ModuleIndex b') (List.length addrs))).
Proof.
  intros Hreach Hin Hres Hidx.
  rewrite (KextList_loop _ _ _ _ _ Hreach).
  destruct (printBundles_cases addrs bundles)
    as [[Hall _] | (pre & b' & post & Hl & Hpre & Hb' & Hrun)].
  - rewrite forallb_forall in Hall. specialize (Hall b Hin).
    apply okBundle_true in Hall. destruct Hall; [congruence | lia].
  - exists pre, b', post. apply okBundle_false in Hb'. destruct Hb' as [Hr Ho].
    rewrite Hrun. now repeat split.
Qed.

Lemma KextList_index_out_of_range_witness :
  exists pre b' post,
    [Example.bundleA; Example.bundleB; Example.bundleBad; Example.bundleA]
    = pre ++ b' :: post /\
    forallb (okBundle [0x12340000]) pre = true /\
    OSKernelResource b' = false /\
    ~ 0 <= ModuleIndex b' < 1 /\
    KextList (Example.open Example.prelinkImage)
      (Example.decoder
         [Example.bundleA; Example.bundleB; Example.bundleBad; Example.bundleA])
      "kernelcache"
    = (Println_FOUND 4 :: map (entry [0x12340000]) pre,
       Panicked (IndexOutOfRange (ModuleIndex b') 1)).
Proof.
  refine (KextList_index_out_of_range
            (Example.open Example.prelinkImage)
            (Example.decoder
               [Example.bundleA; Example.bundleB; Example.bundleBad; Example.bundleA])
            "kernelcache" [0x12340000]
            [Example.bundleA; Example.bundleB; Example.bundleBad; Example.bundleA]
            Example.bundleBad _ _ _ _).
  - exists Example.prelinkImage, (Example.section_of Example.plistBytes),
      Example.plistBytes,
      {| PrelinkInfoDictionary :=
           [Example.bundleA; Example.bundleB; Example.bundleBad; Example.bundleA] |}.
    repeat split; reflexivity.
  - simpl. tauto.
  - reflexivity.
  - simpl. lia.
Defined.

(** C3: a bundle that is not a kernel resource and whose [ModuleIndex] is in
    bounds is printed with load address
    [kextStartAddrs[ModuleIndex] | 0xFFFF000000000000] (the element of the
    start-address array at position [ModuleIndex]), its [ID] and its
    [Version], at its place in the listing. *)
Theorem KextList_entry_in_bounds
    (Open : string -> result File)
    (plist_Decode : list byte -> result PrelinkInfo)
    (kernel : string) (addrs : list Z) (pre post : list CFBundle)
    (b : CFBundle) :
  reachesLoop Open plist_Decode kernel addrs (pre ++ b :: post) ->
  forallb (okBundle addrs) pre = true ->
  OSKernelResource b = false ->
  0 <= ModuleIndex b < Z.of_nat (List.length addrs) ->
  exists a,
    nth_error addrs (Z.to_nat (ModuleIndex b)) = Some a /\
    printBundle addrs b
    = inl (Printf_kext (Z.lor a 0xFFFF000000000000) (ID b) (Version b)) /\
    nth_error (fst (KextList Open plist_Decode kernel)) (S (List.length pre))
    = Some (Printf_kext (Z.lor a 0xFFFF000000000000) (ID b) (Version b)).
Proof.
  intros Hreach Hpre Hres Hidx.
  exists (nth (Z.to_nat (ModuleIndex b)) addrs 0).
  assert (Hok : okBundle addrs b = true) by (apply okBundle_true; now right).
  assert (Hentry : entry addrs b
                   = Printf_kext
                       (Z.lor (nth (Z.to_nat (ModuleIndex b)) addrs 0)
                          0xFFFF000000000000) (ID b) (Version b)).
  { unfold entry. now rewrite Hres. }
  split; [apply nth_error_nth'; lia |].
  split; [now rewrite (printBundle_ok _ _ Hok), Hentry |].
  rewrite (KextList_loop _ _ _ _ _ Hreach). cbn [fst nth_error].
  rewrite (printBundles_app_ok _ _ _ Hpre). cbn [fst].
  rewrite nth_error_app2 by (rewrite length_map; lia).
  rewrite length_map, Nat.sub_diag.
  cbn [printBundles]. rewrite (printBundle_ok _ _ Hok), Hentry.
  now destruct (printBundles addrs post).
Qed.

Lemma KextList_entry_in_bounds_witness :
  (KextList (Example.open Example.prelinkImage)
     (Example.decoder [Example.bundleA]) "kernelcache"
   = ([Println_FOUND 1;
       Printf_kext 0xFFFF000012340000 "com.example.test" "1.0"],
      Returned None) /\
   nth_error
     (fst (KextList (Example.open Example.prelinkImage)
             (Example.decoder [Example.bundleA]) "kernelcache")) 1
   = Some (Printf_kext 0xFFFF000012340000 "com.example.test" "1.0")) /\
  (KextList (Example.open Example.threeAddrImage)
     (Example.decoder [Example.bundleC; Example.bundleA; Example.bundleD])
     "kernelcache"
   = ([Println_FOUND 3;
       Printf_kext 0xFFFF000000030000 "com.example.c" "1.2";
       Printf_kext 0xFFFF000000010000 "com.example.test" "1.0";
       Printf_kext 0xFFFF000000020000 "com.example.d" "1.1"],
      Returned None) /\
   nth_error
     (fst (KextList (Example.open Example.threeAddrImage)
             (Example.decoder [Example.bundleC; Example.bundleA; Example.bundleD])
             "kernelcache")) 3
   = Some (Printf_kext 0xFFFF000000020000 "com.example.d" "1.1")).
Proof.
  split; (split; [reflexivity |]).
  - destruct (KextList_entry_in_bounds
                (Example.open Example.prelinkImage)
                (Example.decoder [Example.bundleA])
                "kernelcache" [0x12340000] [] [] Example.bundleA)
      as (a & Ha & _ & Hline).
    + exists Example.prelinkImage, (Example.section_of Example.plistBytes),
        Example.plistBytes, {| PrelinkInfoDictionary := [Example.bundleA] |}.
      repeat split; reflexivity.
    + reflexivity.
    + reflexivity.
    + simpl. lia.
    + injection Ha as <-. exact Hline.
  - destruct (KextList_entry_in_bounds
                (Example.open Example.threeAddrImage)
                (Example.decoder [Example.bundleC; Example.bundleA; Example.bundleD])
                "kernelcache" [0x10000; 0x20000; 0x30000]
                [Example.bundleC; Example.bundleA] [] Example.bundleD)
      as (a & Ha & _ & Hline).
    + exists Example.threeAddrImage, (Example.section_of Example.plistBytes),
        Example.plistBytes,
        {| PrelinkInfoDictionary :=
             [Example.bundleC; Example.bundleA; Example.bundleD] |}.
      repeat split; reflexivity.
    + reflexivity.
    + reflexivity.
    + simpl. lia.
    + injection Ha as <-. exact Hline.
Defined.

(** C4: a bundle that is a kernel resource is printed with load address 0,
    whatever its [ModuleIndex]: the loop body does not index the address
    array for it and raises no index-out-of-range panic. *)
Theorem KextList_entry_kernel_resource
    (Open : string -> result File)
    (plist_Decode : list byte -> result PrelinkInfo)
    (kernel : string) (addrs : list Z) (pre post : list CFBundle)
    (b : CFBundle) :
  reachesLoop Open plist_Decode kernel addrs (pre ++ b :: post) ->
  forallb (okBundle addrs) pre = true ->
  OSKernelResource b = true ->
  printBundle addrs b = inl (Printf_kext 0 (ID b) (Version b)) /\
  nth_error (fst (KextList Open plist_Decode kernel)) (S (List.length pre))
  = Some (Printf_kext 0 (ID b) (Version b)) /\
  (forallb (okBundle addrs) post = true ->
   snd (KextList Open plist_Decode kernel) = Returned None).
Proof.
  intros Hreach Hpre Hres.
  assert (Hok : okBundle addrs b = true) by (apply okBundle_true; now left).
  assert (Hentry : entry addrs b = Printf_kext 0 (ID b) (Version b)).
  { unfold entry. now rewrite Hres. }
  split; [now rewrite (printBundle_ok _ _ Hok), Hentry |].
  rewrite (KextList_loop _ _ _ _ _ Hreach). cbn [fst snd nth_error].
  rewrite (printBundles_app_ok _ _ _ Hpre). cbn [fst snd].
  split.
  - rewrite nth_error_app2 by (rewrite length_map; lia).
    rewrite length_map, Nat.sub_diag.
    cbn [printBundles]. rewrite (printBundle_ok _ _ Hok), Hentry.
    now destruct (printBundles addrs post).
  - intros Hpost. cbn [printBundles]. rewrite (printBundle_ok _ _ Hok).
    destruct (printBundles_cases addrs post)
      as [[_ Hrun] | (p1 & b' & p2 & Hl & Hp1 & Hb' & _)].
    + now rewrite Hrun.
    + subst post. rewrite forallb_app in Hpost. cbn [forallb] in Hpost.
      rewrite Hb' in Hpost. rewrite andb_false_r in Hpost. discriminate.
Qed.

Lemma KextList_entry_kernel_resource_witness :
  ModuleIndex Example.bundleB = 5 /\
  KextList (Example.open Example.prelinkImage)
    (Example.decoder [Example.bundleB]) "kernelcache"
  = ([Println_FOUND 1; Printf_kext 0 "com.example.kernel" "2.0"],
     Returned None) /\
  printBundle [0x12340000] Example.bundleB
  = inl (Printf_kext 0 "com.example.kernel" "2.0").
Proof.
  split; [reflexivity |]. split; [reflexivity |].
  refine (proj1 (KextList_entry_kernel_resource
                   (Example.open Example.prelinkImage)
                   (Example.decoder [Example.bundleB])
                   "kernelcache" [0x12340000] [] [] Example.bundleB _ _ _)).
  - exists Example.prelinkImage, (Example.section_of Example.plistBytes),
      Example.plistBytes, {| PrelinkInfoDictionary := [Example.bundleB] |}.
    repeat split; reflexivity.
  - reflexivity.
  - reflexivity.
Defined.

(** ** How a listing ends *)

(** C2, as stated, fails: with the start addresses present and the section
    (__PRELINK_INFO, __info) absent, [KextList] returns nil having printed
    nothing, and with an out-of-range bundle after a good one it panics
    after the good one has been printed. *)
Lemma KextList_not_all_or_nothing :
  (FSection Example.noInfoImage "__PRELINK_INFO" "__info" = None /\
   KextList (Example.open Example.noInfoImage)
     (Example.decoder [Example.bundleA]) "kernelcache"
   = ([], Returned None) /\
   ~ allOrNothing
       (KextList (Example.open Example.noInfoImage)
          (Example.decoder [Example.bundleA]) "kernelcache")) /\
  (KextList (Example.open Example.prelinkImage)
     (Example.decoder [Example.bundleA; Example.bundleBad]) "kernelcache"
   = ([Println_FOUND 2;
       Printf_kext 0xFFFF000012340000 "com.example.test" "1.0"],
      Panicked (IndexOutOfRange 1 1)) /\
   ~ allOrNothing
       (KextList (Example.open Example.prelinkImage)
          (Example.decoder [Example.bundleA; Example.bundleBad]) "kernelcache")).
Proof.
  split.
  - split; [reflexivity |]. split; [reflexivity |].
    intros [(addrs & bundles & H) | [(e & H) | (p & H)]]; discriminate H.
  - split; [reflexivity |].
    intros [(addrs & bundles & H) | [(e & H) | (p & H)]]; discriminate H.
Qed.

(** C2, amended: how [KextList] ends is fixed by the image, in one of seven
    ways.  It returns the error of [macho.Open], of [getKextStartVMAddrs]
    (the section (__PRELINK_INFO, __kmod_start) is absent, or its pointer
    array cannot be read), of the [Data()] of the info section, or of the
    plist decoder, having printed nothing; or, the section
    (__PRELINK_INFO, __info) being absent, it returns nil having printed
    nothing; or it returns nil having printed the header and one entry per
    bundle, in plist order; or it panics with index out of range at the
    first bundle that is not a kernel resource and whose index is out of
    bounds, having printed the header and the entries of the bundles before
    it. *)
Theorem KextList_outcomes
    (Open : string -> result File)
    (plist_Decode : list byte -> result PrelinkInfo)
    (kernel : string) :
  (exists e,
      Open kernel = Err e /\
      KextList Open plist_Decode kernel = ([], Returned (Some e))) \/
  (exists m e,
      Open kernel = Ok m /\
      getKextStartVMAddrs m = Err e /\
      ((FSection m "__PRELINK_INFO" "__kmod_start" = None /\
        e = Errorf "section __PRELINK_INFO.__kmod_start not found") \/
       (exists kmodStart,
           FSection m "__PRELINK_INFO" "__kmod_start" = Some kmodStart /\
           readPtrs kmodStart = Err e)) /\
      KextList Open plist_Decode kernel = ([], Returned (Some e))) \/
  (exists m addrs,
      Open kernel = Ok m /\
      getKextStartVMAddrs m = Ok addrs /\
      FSection m "__PRELINK_INFO" "__info" = None /\
      KextList Open plist_Decode kernel = ([], Returned None)) \/
  (exists m addrs infoSec e,
      Open kernel = Ok m /\
      getKextStartVMAddrs m = Ok addrs /\
      FSection m "__PRELINK_INFO" "__info" = Some infoSec /\
      Data infoSec = Err e /\
      KextList Open plist_Decode kernel = ([], Returned (Some e))) \/
  (exists m addrs infoSec data e,
      Open kernel = Ok m /\
      getKextStartVMAddrs m = Ok addrs /\
      FSection m "__PRELINK_INFO" "__info" = Some infoSec /\
      Data infoSec = Ok data /\
      plist_Decode (bytes_Trim0 data) = Err e /\
      KextList Open plist_Decode kernel = ([], Returned (Some e))) \/
  (exists addrs bundles,
      reachesLoop Open plist_Decode kernel addrs bundles /\
      forallb (okBundle addrs) bundles = true /\
      KextList Open plist_Decode kernel
      = (Println_FOUND (List.length bundles) :: map (entry addrs) bundles,
         Returned None)) \/
  (exists addrs pre b post,
      reachesLoop Open plist_Decode kernel addrs (pre ++ b :: post) /\
      forallb (okBundle addrs) pre = true /\
      OSKernelResource b = false /\
      ~ 0 <= ModuleIndex b < Z.of_nat (List.length addrs) /\
      KextList Open plist_Decode kernel
      = (Println_FOUND (List.length (pre ++ b :: post)) :: map (entry addrs) pre,
         Panicked (IndexOutOfRange (ModuleIndex b) (List.length addrs)))).
Proof.
  destruct (Open kernel) as [m | e] eqn:Hopen.
  2: { left. exists e. unfold KextList. now rewrite Hopen. }
  right.
  destruct (getKextStartVMAddrs m) as [addrs | e] eqn:Hget.
  2: { left. exists m, e. split; [reflexivity |]. split; [exact Hget |]. split.
       - unfold getKextStartVMAddrs in Hget.
         destruct (FSection m "__PRELINK_INFO" "__kmod_start") as [sec |].
         + right. now exists sec.
         + left. injection Hget as <-. now split.
       - unfold KextList. now rewrite Hopen, Hget. }
  right.
  destruct (FSection m "__PRELINK_INFO" "__info") as [infoSec |] eqn:Hsec.
  2: { left. exists m, addrs. unfold KextList.
       rewrite Hopen, Hget, Hsec. now repeat split. }
  right.
  destruct (Data infoSec) as [data | e] eqn:Hdata.
  2: { left. exists m, addrs, infoSec, e. unfold KextList.
       rewrite Hopen, Hget, Hsec, Hdata. now repeat split. }
  right.
  destruct (plist_Decode (bytes_Trim0 data)) as [prelink | e] eqn:Hdec.
  2: { left. exists m, addrs, infoSec, data, e. unfold KextList.
       rewrite Hopen, Hget, Hsec, Hdata, Hdec. now repeat split. }
  right.
  assert (Hreach : reachesLoop Open plist_Decode kernel addrs
                     (PrelinkInfoDictionary prelink)).
  { exists m, infoSec, data, prelink. now repeat split. }
  rewrite (KextList_loop _ _ _ _ _ Hreach).
  destruct (printBundles_cases addrs (PrelinkInfoDictionary prelink))
    as [[Hall Hrun] | (pre & b & post & Hl & Hpre & Hb & Hrun)].
  - left. exists addrs, (PrelinkInfoDictionary prelink).
    rewrite Hrun. now repeat split.
  - right. exists addrs, pre, b, post.
    apply okBundle_false in Hb. destruct Hb as [Hres Hout].
    rewrite Hrun, <- Hl. now repeat split.
Qed.

(** ** The kmod_info records *)

Lemma fill_length (n : nat) (got : list byte) :
  List.length (fill n got) = n.
Proof.
  unfold fill. apply firstn_length_le.
  rewrite length_app, repeat_length. lia.
Qed.

Lemma binary_Read_KmodInfoT_fill (got : list byte) :
  binary_Read_KmodInfoT (fill KmodInfoT_size got)
  = Ok (decode_KmodInfoT (fill KmodInfoT_size got)).
Proof.
  unfold binary_Read_KmodInfoT.
  rewrite ReadFull_enough by (rewrite fill_length; lia).
  cbn [bind]. f_equal. f_equal.
  apply firstn_all2. rewrite fill_length. lia.
Qed.

Lemma kextInfosLoop_records (Target : Z -> Z) (m : File) (ptrs : list Z)
    (acc infos : list KmodInfoT) :
  kextInfosLoop Target m ptrs acc = Ok infos ->
  exists new, infos = acc ++ new /\ Forall2 (recordOf Target m) ptrs new.
Proof.
  revert acc. induction ptrs as [| ptr rest IH]; intros acc Hrun.
  - cbn in Hrun. injection Hrun as <-. exists []. split.
    + now rewrite app_nil_r.
    + constructor.
  - cbn [kextInfosLoop] in Hrun.
    destruct (GetOffset m (Z.lor ptr tagPtrMask)) as [off | e] eqn:Hoff;
      cbn [bind] in Hrun; [| discriminate].
    destruct (ReadAt m KmodInfoT_size (U64.to_int64 off)) as [got err] eqn:Hread.
    destruct err as [e |]; [discriminate |].
    rewrite binary_Read_KmodInfoT_fill in Hrun.
    apply IH in Hrun. destruct Hrun as (new & Hinfos & Hrest).
    rewrite <- app_assoc in Hinfos. cbn [app] in Hinfos.
    eexists. split; [exact Hinfos |].
    constructor; [| exact Hrest].
    exists off, got. split; [exact Hoff |]. split; [exact Hread |].
    cbv zeta. unfold samePlainFields.
    repeat match goal with |- _ /\ _ => split end; reflexivity.
Qed.

(** C6: every record returned by [getKextInfos] is the little-endian decoding
    of the 196 bytes read for its pointer, except that [StartAddr] and
    [StopAddr] are the fixup of the decoded values; the other ten fields are
    the decoded values unchanged. *)
Theorem getKextInfos_fixup_frame (Target : Z -> Z) (m : File)
    (infos : list KmodInfoT) :
  getKextInfos Target m = Ok infos ->
  exists kmodInfo ptrs,
    FSection m "__PRELINK_INFO" "__kmod_info" = Some kmodInfo /\
    readPtrs kmodInfo = Ok ptrs /\
    Forall2 (recordOf Target m) ptrs infos.
Proof.
  unfold getKextInfos. intros Hrun.
  destruct (FSection m "__PRELINK_INFO" "__kmod_info") as [sec |];
    [| discriminate].
  destruct (readPtrs sec) as [ptrs | e] eqn:Hread; cbn [bind] in Hrun;
    [| discriminate].
  apply kextInfosLoop_records in Hrun. destruct Hrun as (new & -> & Hrec).
  exists sec, ptrs. split; [reflexivity |]. split; [exact Hread | exact Hrec].
Qed.

Lemma getKextInfos_fixup_frame_witness :
  getKextInfos Example.target Example.kmodImage = Ok Example.kmodInfos /\
  map Kmod.Address Example.kmodInfos = [0x12340000] /\
  map Kmod.ReferenceCount Example.kmodInfos = [-1] /\
  map Kmod.StartAddr Example.kmodInfos = [0xfffffff019349678] /\
  exists kmodInfo ptrs,
    FSection Example.kmodImage "__PRELINK_INFO" "__kmod_info" = Some kmodInfo /\
    readPtrs kmodInfo = Ok ptrs /\
    Forall2 (recordOf Example.target Example.kmodImage) ptrs Example.kmodInfos.
Proof.
  do 4 (split; [vm_compute; reflexivity |]).
  apply (getKextInfos_fixup_frame Example.target Example.kmodImage).
  vm_compute. reflexivity.
Defined.


(** * Further properties of the code *)

(** ** Tagged pointers, continued *)

Lemma lor_shiftl48_add (hi lo : Z) :
  0 <= lo < 2 ^ 48 ->
  Z.lor (Z.shiftl hi 48) lo = hi * 2 ^ 48 + lo.
Proof.
  intros Hlo.
  assert (Hdisj : Z.land (Z.shiftl hi 48) lo = 0).
  { apply Z.bits_inj'. intros n Hn. rewrite Z.land_spec, Z.bits_0.
    destruct (Z.ltb_spec n 48).
    - now rewrite Z.shiftl_spec_low.
    - destruct (Z.eq_dec lo 0) as [-> | Hnz].
      + now rewrite Z.bits_0, andb_false_r.
      + rewrite (Z.bits_above_log2 lo n), andb_false_r; [reflexivity | lia |].
        apply Z.lt_le_trans with 48; [| lia].
        apply Z.log2_lt_pow2; lia. }
  rewrite <- Z.lxor_lor, <- Z.add_nocarry_lxor by exact Hdisj.
  now rewrite Z.shiftl_mul_pow2 by lia.
Qed.

Lemma unTag_arith (p : Z) : unTag p = 0xffff * 2 ^ 48 + p mod 2 ^ 48.
Proof.
  unfold unTag. change (Z.shiftl 1 48 - 1) with (Z.ones 48).
  rewrite Z.land_ones by lia. rewrite Z.lor_comm.
  apply lor_shiftl48_add. apply Z.mod_pos_bound. lia.
Qed.

Lemma testbit_above_64 (p n : Z) :
  0 <= p < 2 ^ 64 -> 64 <= n -> Z.testbit p n = false.
Proof.
  intros Hp Hn. destruct (Z.eq_dec p 0) as [-> | Hnz]; [apply Z.bits_0 |].
  apply Z.bits_above_log2; [lia |].
  apply Z.lt_le_trans with 64; [| lia].
  apply Z.log2_lt_pow2; lia.
Qed.

(** X1: whatever its argument, [unTag] gives a 64-bit value whose top 16
    bits are all ones: it lies in [0xffff000000000000, 2^64), its tag is
    0xffff, and applying [unTag] again changes nothing. *)
Theorem unTag_canonical (p : Z) :
  0xffff000000000000 <= unTag p < 2 ^ 64 /\
  getTag (unTag p) = 0xffff /\
  unTag (unTag p) = unTag p.
Proof.
  pose proof (Z.mod_pos_bound p (2 ^ 48) ltac:(lia)) as Hm.
  split; [rewrite unTag_arith; lia |].
  split.
  - unfold getTag. rewrite Z.shiftr_div_pow2 by lia. rewrite unTag_arith.
    rewrite Z.add_comm, Z.div_add by lia. rewrite Z.div_small by lia. reflexivity.
  - rewrite (unTag_arith (unTag p)), (unTag_arith p).
    set (m := p mod 2 ^ 48) in *.
    replace ((0xffff * 2 ^ 48 + m) mod 2 ^ 48) with m; [reflexivity |].
    symmetry. rewrite Z.add_comm, Z.mod_add by lia. apply Z.mod_small. lia.
Qed.

Lemma lor_mask_arith (ptr : Z) :
  0 <= ptr < 2 ^ 64 ->
  Z.lor ptr tagPtrMask = 0xffff * 2 ^ 48 + ptr mod 2 ^ 48.
Proof.
  intros Hp. rewrite <- unTag_arith. apply Z.bits_inj'. intros n Hn.
  rewrite unTag_testbit, Z.lor_spec, tagPtrMask_testbit by lia.
  destruct (Z.ltb_spec n 48).
  - destruct (Z.leb_spec 48 n); [lia |]. cbn [andb]. now rewrite orb_false_r.
  - destruct (Z.leb_spec 48 n); [| lia]. cbn [andb].
    destruct (Z.ltb_spec n 64).
    + now rewrite orb_true_r.
    + rewrite (testbit_above_64 ptr n) by lia. reflexivity.
Qed.

(** X2: on every uint64 the two idioms of the file agree:
    [unTag ptr] is [ptr | tagPtrMask]. *)
Theorem unTag_is_or_mask (ptr : Z) :
  0 <= ptr < 2 ^ 64 ->
  unTag ptr = Z.lor ptr tagPtrMask.
Proof.
  intros Hp. now rewrite unTag_arith, lor_mask_arith.
Qed.

Lemma unTag_is_or_mask_witness :
  unTag 0x0017fe0012345678 = Z.lor 0x0017fe0012345678 tagPtrMask.
Proof.
  apply (unTag_is_or_mask 0x0017fe0012345678). lia.
Defined.

(** X3: a uint64 splits without loss into its tag and its 48-bit payload:
    [getTag] is below 2^16, and the tag shifted back over the low 48 bits
    rebuilds the pointer. *)
Theorem getTag_payload_split (ptr : Z) :
  0 <= ptr < 2 ^ 64 ->
  0 <= getTag ptr < 2 ^ 16 /\
  Z.lor (Z.shiftl (getTag ptr) 48) (Z.land ptr (2 ^ 48 - 1)) = ptr.
Proof.
  intros Hp. unfold getTag. rewrite Z.shiftr_div_pow2 by lia.
  change (2 ^ 48 - 1) with (Z.ones 48). rewrite Z.land_ones by lia.
  pose proof (Z.mod_pos_bound ptr (2 ^ 48) ltac:(lia)) as Hm.
  split.
  - split; [apply Z.div_pos; lia |].
    apply Z.div_lt_upper_bound; lia.
  - rewrite lor_shiftl48_add by exact Hm.
    rewrite (Z.div_mod ptr (2 ^ 48)) at 3 by lia. lia.
Qed.

Lemma getTag_payload_split_witness :
  0 <= getTag 0x0017fe0012345678 < 2 ^ 16 /\
  Z.lor (Z.shiftl (getTag 0x0017fe0012345678) 48)
    (Z.land 0x0017fe0012345678 (2 ^ 48 - 1))
  = 0x0017fe0012345678.
Proof.
  apply (getTag_payload_split 0x0017fe0012345678). lia.
Defined.

(** ** Packed pointer arrays, continued *)

Lemma byte_val_range (b : byte) : 0 <= byte_val b < 256.
Proof.
  unfold byte_val. pose proof (Byte.to_N_bounded b). lia.
Qed.

Lemma le_uint_range (bs : list byte) :
  0 <= le_uint bs < 256 ^ Z.of_nat (List.length bs).
Proof.
  induction bs as [| b rest IH]; cbn [le_uint List.length].
  - cbn. lia.
  - rewrite Nat2Z.inj_succ, Z.pow_succ_r by lia.
    pose proof (byte_val_range b). lia.
Qed.

Lemma le_uint_width (w : nat) (bs : list byte) :
  (List.length bs <= w)%nat -> 0 <= le_uint bs < 256 ^ Z.of_nat w.
Proof.
  intros Hlen. pose proof (le_uint_range bs) as Hr.
  assert (256 ^ Z.of_nat (List.length bs) <= 256 ^ Z.of_nat w)
    by (apply Z.pow_le_mono_r; lia).
  lia.
Qed.

Lemma field_length (off w : nat) (bs : list byte) :
  (List.length (field off w bs) <= w)%nat.
Proof.
  unfold field. rewrite length_firstn. lia.
Qed.

Lemma le_words_range (n : nat) (bs : list byte) :
  Forall (fun w => 0 <= w < 2 ^ 64) (le_words n bs).
Proof.
  revert bs. induction n as [| k IH]; intros bs; cbn [le_words]; constructor.
  - apply (le_uint_width 8). rewrite length_firstn. lia.
  - apply IH.
Qed.

Lemma readPtrs_inv (sec : MSection) (ptrs : list Z) :
  readPtrs sec = Ok ptrs ->
  exists data,
    Data sec = Ok data /\
    (8 * Z.to_nat (Size sec / 8) <= List.length data)%nat /\
    ptrs = le_words (Z.to_nat (Size sec / 8)) data.
Proof.
  unfold readPtrs, binary_Read_uint64s, ReadFull. intros Hrun.
  destruct (Data sec) as [data | e]; cbn [bind] in Hrun; [| discriminate].
  exists data. split; [reflexivity |].
  set (n := Z.to_nat (Size sec / 8)) in *.
  destruct (Nat.eqb_spec (8 * n) 0) as [Hz | Hnz].
  - cbn [bind] in Hrun. injection Hrun as <-.
    assert (n = 0%nat) as -> by lia. split; [lia | reflexivity].
  - destruct (Nat.eqb_spec (List.length data) 0); [discriminate |].
    destruct (Nat.ltb_spec (List.length data) (8 * n)); [discriminate |].
    cbn [bind] in Hrun. injection Hrun as <-.
    split; [lia | apply le_words_firstn].
Qed.

(** X4: when a packed pointer array is read with success, the section data
    held at least [8 * (Size / 8)] bytes, the array has [Size / 8] entries,
    and every entry is a uint64 (in [0, 2^64)). *)
Theorem readPtrs_ok_inv (sec : MSection) (ptrs : list Z) :
  readPtrs sec = Ok ptrs ->
  (exists data,
      Data sec = Ok data /\
      (8 * Z.to_nat (Size sec / 8) <= List.length data)%nat) /\
  List.length ptrs = Z.to_nat (Size sec / 8) /\
  Forall (fun p => 0 <= p < 2 ^ 64) ptrs.
Proof.
  intros Hrun. apply readPtrs_inv in Hrun.
  destruct Hrun as (data & Hd & Hlen & ->).
  split; [now exists data |].
  split; [apply le_words_length | apply le_words_range].
Qed.

Lemma readPtrs_ok_inv_witness :
  (exists data,
      Data Example.oddSection = Ok data /\
      (8 * Z.to_nat (Size Example.oddSection / 8) <= List.length data)%nat) /\
  List.length [0x12340000; 0x56780000] = Z.to_nat (Size Example.oddSection / 8) /\
  Forall (fun p => 0 <= p < 2 ^ 64) [0x12340000; 0x56780000].
Proof.
  apply (readPtrs_ok_inv Example.oddSection [0x12340000; 0x56780000]).
  reflexivity.
Defined.

(** X5: when [Data()] of a section fails, every reader of that section
    returns the same error: [getKextStartVMAddrs] (and [KextList], which
    prints nothing), [getKextInfos], [GetSandboxOpts] and
    [GetSandboxProfiles]; [binary.Read] is not reached. *)
Theorem section_data_error (sec : MSection) (e : error) :
  Data sec = Err e ->
  readPtrs sec = Err e /\
  (forall m, FSection m "__PRELINK_INFO" "__kmod_start" = Some sec ->
     getKextStartVMAddrs m = Err e /\
     forall Open plist_Decode kernel,
       Open kernel = Ok m ->
       KextList Open plist_Decode kernel = ([], Returned (Some e))) /\
  (forall Target m, FSection m "__PRELINK_INFO" "__kmod_info" = Some sec ->
     getKextInfos Target m = Err e) /\
  (forall m, FSection m "__DATA_CONST" "__const" = Some sec ->
     GetSandboxOpts m = Err e) /\
  (forall fuel m, FSection m "__TEXT" "__const" = Some sec ->
     GetSandboxProfiles fuel m = Some (inl (Err e))).
Proof.
  intros Hd.
  assert (Hread : readPtrs sec = Err e).
  { unfold readPtrs. now rewrite Hd. }
  split; [exact Hread |].
  split; [| split; [| split]].
  - intros m Hsec.
    assert (Hget : getKextStartVMAddrs m = Err e).
    { unfold getKextStartVMAddrs. now rewrite Hsec. }
    split; [exact Hget |].
    intros Open plist_Decode kernel Hopen. unfold KextList.
    now rewrite Hopen, Hget.
  - intros Target m Hsec. unfold getKextInfos. now rewrite Hsec, Hread.
  - intros m Hsec. unfold GetSandboxOpts. now rewrite Hsec, Hread.
  - intros fuel m Hsec. unfold GetSandboxProfiles. now rewrite Hsec, Hd.
Qed.

Lemma section_data_error_witness :
  readPtrs Example.brokenSection = Err (LibError "read failed") /\
  GetSandboxOpts Example.brokenConstImage = Err (LibError "read failed").
Proof.
  pose proof (section_data_error Example.brokenSection
                (LibError "read failed") eq_refl) as (Hread & _ & _ & Hopts & _).
  split; [exact Hread |].
  apply (Hopts Example.brokenConstImage). reflexivity.
Defined.

(** ** The kmod_info records, continued *)

Lemma kextInfosLoop_cons_ok (Target : Z -> Z) (m : File) (ptr off : Z)
    (got : list byte) (rest : list Z) (acc : list KmodInfoT) :
  GetOffset m (Z.lor ptr tagPtrMask) = Ok off ->
  ReadAt m KmodInfoT_size (U64.to_int64 off) = (got, None) ->
  kextInfosLoop Target m (ptr :: rest) acc
  = kextInfosLoop Target m rest
      (acc ++ [rebased Target m (decode_KmodInfoT (fill KmodInfoT_size got))]).
Proof.
  intros Hoff Hread. cbn [kextInfosLoop]. rewrite Hoff. cbn [bind].
  rewrite Hread, binary_Read_KmodInfoT_fill. reflexivity.
Qed.

Lemma kextInfosLoop_cons_bad (Target : Z -> Z) (m : File) (ptr : Z)
    (e : error) (rest : list Z) (acc : list KmodInfoT) :
  unreadable m ptr e ->
  kextInfosLoop Target m (ptr :: rest) acc = Err e.
Proof.
  intros [Hoff | (off & got & Hoff & Hread)]; cbn [kextInfosLoop];
    rewrite Hoff; cbn [bind]; [reflexivity |].
  now rewrite Hread.
Qed.

Lemma recordOf_rebased (Target : Z -> Z) (m : File) (ptr : Z) (info : KmodInfoT) :
  recordOf Target m ptr info ->
  exists off got,
    GetOffset m (Z.lor ptr tagPtrMask) = Ok off /\
    ReadAt m KmodInfoT_size (U64.to_int64 off) = (got, None) /\
    info = rebased Target m (decode_KmodInfoT (fill KmodInfoT_size got)).
Proof.
  intros (off & got & Hoff & Hread & Hrec). exists off, got.
  split; [exact Hoff |]. split; [exact Hread |].
  cbv zeta in Hrec. unfold samePlainFields in Hrec.
  destruct Hrec as ((H1 & H2 & H3 & H4 & H5 & H6 & H7 & H8 & H9 & H10) & H11 & H12).
  destruct info. unfold rebased. cbn in H1, H2, H3, H4, H5, H6, H7, H8, H9, H10, H11, H12.
  now rewrite H1, H2, H3, H4, H5, H6, H7, H8, H9, H10, H11, H12.
Qed.

Lemma kextInfosLoop_all_ok (Target : Z -> Z) (m : File) (ptrs : list Z)
    (new : list KmodInfoT) :
  Forall2 (recordOf Target m) ptrs new ->
  forall rest acc,
    kextInfosLoop Target m (ptrs ++ rest) acc
    = kextInfosLoop Target m rest (acc ++ new).
Proof.
  induction 1 as [| ptr info ptrs new Hrec _ IH]; intros rest acc.
  - now rewrite app_nil_r.
  - apply recordOf_rebased in Hrec. destruct Hrec as (off & got & Hoff & Hread & ->).
    cbn [app]. rewrite (kextInfosLoop_cons_ok _ _ _ _ _ _ _ Hoff Hread), IH.
    now rewrite <- app_assoc.
Qed.

Lemma kextInfosLoop_err (Target : Z -> Z) (m : File) (ptrs : list Z)
    (acc : list KmodInfoT) (e : error) :
  kextInfosLoop Target m ptrs acc = Err e ->
  exists ptr, In ptr ptrs /\ unreadable m ptr e.
Proof.
  revert acc. induction ptrs as [| ptr rest IH]; intros acc Hrun;
    [discriminate |].
  cbn [kextInfosLoop] in Hrun.
  destruct (GetOffset m (Z.lor ptr tagPtrMask)) as [off | e'] eqn:Hoff;
    cbn [bind] in Hrun.
  - destruct (ReadAt m KmodInfoT_size (U64.to_int64 off)) as [got err] eqn:Hread.
    destruct err as [e' |].
    + injection Hrun as ->. exists ptr. split; [now left |].
      right. now exists off, got.
    + rewrite binary_Read_KmodInfoT_fill in Hrun.
      apply IH in Hrun. destruct Hrun as (q & Hin & Hq).
      exists q. split; [now right | exact Hq].
  - injection Hrun as ->. exists ptr. split; [now left | now left].
Qed.

(** X6: when the section (__PRELINK_INFO, __kmod_info) is read and every one
    of its pointers maps to an offset where the read succeeds,
    [getKextInfos] returns one record per pointer, in the order of the
    pointers. *)
Theorem getKextInfos_all_readable (Target : Z -> Z) (m : File)
    (kmodInfo : MSection) (ptrs : list Z) (infos : list KmodInfoT) :
  FSection m "__PRELINK_INFO" "__kmod_info" = Some kmodInfo ->
  readPtrs kmodInfo = Ok ptrs ->
  Forall2 (recordOf Target m) ptrs infos ->
  getKextInfos Target m = Ok infos.
Proof.
  intros Hsec Hread Hall. unfold getKextInfos. rewrite Hsec, Hread. cbn [bind].
  rewrite <- (app_nil_r ptrs), (kextInfosLoop_all_ok _ _ _ _ Hall).
  reflexivity.
Qed.

Lemma getKextInfos_all_readable_witness :
  getKextInfos Example.target Example.kmodImage = Ok Example.kmodInfos.
Proof.
  apply (getKextInfos_all_readable Example.target Example.kmodImage
           (Example.section_of (Example.packed [0x23450000])) [0x23450000]).
  - reflexivity.
  - reflexivity.
  - constructor; [| constructor].
    exists 0x4000, Example.recordBytes.
    split; [reflexivity |]. split; [reflexivity |].
    cbv zeta. unfold samePlainFields.
    repeat match goal with |- _ /\ _ => split end; vm_compute; reflexivity.
Defined.

(** X7: a successful [getKextInfos] returns exactly [Size / 8] records for
    the section (__PRELINK_INFO, __kmod_info): one per 8-byte pointer, none
    dropped and none added. *)
Theorem getKextInfos_length (Target : Z -> Z) (m : File)
    (infos : list KmodInfoT) :
  getKextInfos Target m = Ok infos ->
  exists kmodInfo,
    FSection m "__PRELINK_INFO" "__kmod_info" = Some kmodInfo /\
    List.length infos = Z.to_nat (Size kmodInfo / 8).
Proof.
  unfold getKextInfos. intros Hrun.
  destruct (FSection m "__PRELINK_INFO" "__kmod_info") as [sec |];
    [| discriminate].
  destruct (readPtrs sec) as [ptrs | e] eqn:Hread; cbn [bind] in Hrun;
    [| discriminate].
  apply kextInfosLoop_records in Hrun. destruct Hrun as (new & -> & Hrec).
  exists sec. split; [reflexivity |]. cbn [app].
  rewrite <- (Forall2_length Hrec).
  apply readPtrs_inv in Hread. destruct Hread as (data & _ & _ & ->).
  apply le_words_length.
Qed.

Lemma getKextInfos_length_witness :
  exists kmodInfo,
    FSection Example.kmodImage "__PRELINK_INFO" "__kmod_info" = Some kmodInfo /\
    List.length Example.kmodInfos = Z.to_nat (Size kmodInfo / 8).
Proof.
  apply (getKextInfos_length Example.target Example.kmodImage).
  vm_compute. reflexivity.
Defined.

(** X8: the first pointer that cannot be read aborts [getKextInfos] with the
    error of that pointer; the records already decoded for the pointers
    before it are not returned. *)
Theorem getKextInfos_first_failure (Target : Z -> Z) (m : File)
    (kmodInfo : MSection) (pre post : list Z) (ptr : Z)
    (infos : list KmodInfoT) (e : error) :
  FSection m "__PRELINK_INFO" "__kmod_info" = Some kmodInfo ->
  readPtrs kmodInfo = Ok (pre ++ ptr :: post) ->
  Forall2 (recordOf Target m) pre infos ->
  unreadable m ptr e ->
  getKextInfos Target m = Err e.
Proof.
  intros Hsec Hread Hpre Hbad. unfold getKextInfos.
  rewrite Hsec, Hread. cbn [bind].
  rewrite (kextInfosLoop_all_ok _ _ _ _ Hpre).
  now apply kextInfosLoop_cons_bad.
Qed.

Lemma getKextInfos_first_failure_witness :
  getKextInfos Example.target Example.halfMappedImage
  = Err (LibError "address not mapped").
Proof.
  apply (getKextInfos_first_failure Example.target Example.halfMappedImage
           (Example.section_of (Example.packed [0x23450000; 0x23460000]))
           [0x23450000] [] 0x23460000 Example.kmodInfos).
  - reflexivity.
  - reflexivity.
  - constructor; [| constructor].
    exists 0x4000, Example.recordBytes.
    split; [reflexivity |]. split; [reflexivity |].
    cbv zeta. unfold samePlainFields.
    repeat match goal with |- _ /\ _ => split end; vm_compute; reflexivity.
  - left. reflexivity.
Defined.

(** X9: every error of [getKextInfos] has one of three origins: the section
    (__PRELINK_INFO, __kmod_info) is absent (the message then names
    __kmod_start); reading the pointer array failed; or some pointer of the
    array could not be read.  The decoding of a record that was read never
    fails. *)
Theorem getKextInfos_error_origin (Target : Z -> Z) (m : File) (e : error) :
  getKextInfos Target m = Err e ->
  (FSection m "__PRELINK_INFO" "__kmod_info" = None /\
   e = Errorf "section __PRELINK_INFO.__kmod_start not found") \/
  (exists kmodInfo,
      FSection m "__PRELINK_INFO" "__kmod_info" = Some kmodInfo /\
      readPtrs kmodInfo = Err e) \/
  (exists kmodInfo ptrs ptr,
      FSection m "__PRELINK_INFO" "__kmod_info" = Some kmodInfo /\
      readPtrs kmodInfo = Ok ptrs /\
      In ptr ptrs /\
      unreadable m ptr e).
Proof.
  unfold getKextInfos. intros Hrun.
  destruct (FSection m "__PRELINK_INFO" "__kmod_info") as [sec |].
  - right. destruct (readPtrs sec) as [ptrs | e'] eqn:Hread; cbn [bind] in Hrun.
    + right. apply kextInfosLoop_err in Hrun. destruct Hrun as (ptr & Hin & Hbad).
      exists sec, ptrs, ptr. now repeat split.
    + left. injection Hrun as ->. exists sec. now split.
  - left. injection Hrun as <-. now split.
Qed.

Lemma getKextInfos_error_origin_witness :
  (getKextInfos Example.target Example.bareImage
   = Err (Errorf "section __PRELINK_INFO.__kmod_start not found")) /\
  (getKextInfos Example.target Example.truncatedImage = Err EOF) /\
  ((FSection Example.truncatedImage "__PRELINK_INFO" "__kmod_info" = None /\
    EOF = Errorf "section __PRELINK_INFO.__kmod_start not found") \/
   (exists kmodInfo,
       FSection Example.truncatedImage "__PRELINK_INFO" "__kmod_info"
       = Some kmodInfo /\
       readPtrs kmodInfo = Err EOF) \/
   (exists kmodInfo ptrs ptr,
       FSection Example.truncatedImage "__PRELINK_INFO" "__kmod_info"
       = Some kmodInfo /\
       readPtrs kmodInfo = Ok ptrs /\
       In ptr ptrs /\
       unreadable Example.truncatedImage ptr EOF)).
Proof.
  split; [reflexivity |]. split; [reflexivity |].
  apply (getKextInfos_error_origin Example.target Example.truncatedImage EOF).
  reflexivity.
Defined.

Lemma I32_of_bits_range (z : Z) :
  0 <= z < 2 ^ 32 -> - 2 ^ 31 <= I32.of_bits z < 2 ^ 31.
Proof.
  intros Hz. unfold I32.of_bits. destruct (Z.ltb_spec z (2 ^ 31)); lia.
Qed.

Lemma fixup_range (Target : Z -> Z) (m : File) (raw : Z) :
  0 <= fixup Target m raw < 2 ^ 64.
Proof.
  unfold fixup, U64.add, U64.wrap, U64.modulus. apply Z.mod_pos_bound. lia.
Qed.

Lemma field_fill_length (off w : nat) (got : list byte) :
  (off + w <= KmodInfoT_size)%nat ->
  List.length (field off w (fill KmodInfoT_size got)) = w.
Proof.
  intros Hfit. unfold field.
  rewrite length_firstn, length_skipn, fill_length. lia.
Qed.

Lemma rebased_decode_wellTyped (Target : Z -> Z) (m : File) (got : list byte) :
  wellTyped (rebased Target m (decode_KmodInfoT (fill KmodInfoT_size got))).
Proof.
  assert (H8 : forall off bs, 0 <= le_uint (field off 8 bs) < 2 ^ 64).
  { intros off bs. apply (le_uint_width 8), field_length. }
  assert (H4 : forall off bs, 0 <= le_uint (field off 4 bs) < 2 ^ 32).
  { intros off bs. apply (le_uint_width 4), field_length. }
  assert (H64 : forall off, (off + 64 <= KmodInfoT_size)%nat ->
            List.length (field off 64 (fill KmodInfoT_size got)) = 64%nat).
  { intros off Hoff. now apply field_fill_length. }
  unfold wellTyped, rebased, decode_KmodInfoT.
  cbn [Kmod.NextAddr Kmod.InfoVersion Kmod.ID Kmod.Name Kmod.Version
       Kmod.ReferenceCount Kmod.ReferenceListAddr Kmod.Address Kmod.Size
       Kmod.HeaderSize Kmod.StartAddr Kmod.StopAddr].
  split; [apply H8 |].
  split; [apply I32_of_bits_range, H4 |].
  split; [apply H4 |].
  split; [apply H64; unfold KmodInfoT_size; lia |].
  split; [apply H64; unfold KmodInfoT_size; lia |].
  split; [apply I32_of_bits_range, H4 |].
  split; [apply H8 |].
  split; [apply H8 |].
  split; [apply H8 |].
  split; [apply H8 |].
  split; apply fixup_range.
Qed.

(** X10: in every record returned by [getKextInfos] each field lies in the
    range of its Go type: [Name] and [Version] hold 64 bytes, the uint64
    fields (the two rebased addresses among them) are in [0, 2^64), [ID] is
    in [0, 2^32), and [InfoVersion] and [ReferenceCount] are in
    [-2^31, 2^31). *)
Theorem getKextInfos_wellTyped (Target : Z -> Z) (m : File)
    (infos : list KmodInfoT) :
  getKextInfos Target m = Ok infos ->
  Forall wellTyped infos.
Proof.
  unfold getKextInfos. intros Hrun.
  destruct (FSection m "__PRELINK_INFO" "__kmod_info") as [sec |];
    [| discriminate].
  destruct (readPtrs sec) as [ptrs | e]; cbn [bind] in Hrun; [| discriminate].
  apply kextInfosLoop_records in Hrun. destruct Hrun as (new & -> & Hrec).
  cbn [app]. induction Hrec as [| ptr info ptrs new Hinfo _ IH]; constructor.
  - apply recordOf_rebased in Hinfo. destruct Hinfo as (off & got & _ & _ & ->).
    apply rebased_decode_wellTyped.
  - exact IH.
Qed.

Lemma getKextInfos_wellTyped_witness :
  Forall wellTyped Example.kmodInfos.
Proof.
  apply (getKextInfos_wellTyped Example.target Example.kmodImage).
  vm_compute. reflexivity.
Defined.

(** ** The sandbox-operation scanner, continued *)

Lemma collectRun_provenance (m : File) (ptrs : list Z) (s : string) :
  In s (collectRun m ptrs) ->
  exists p, In p ptrs /\ p <> 0 /\ GetCString m (Z.lor p tagPtrMask) = Ok s.
Proof.
  induction ptrs as [| p rest IH]; cbn [collectRun]; [contradiction |].
  change (withTagMask p) with (Z.lor p tagPtrMask); change (tag p) with (getTag p).
  destruct (Z.eqb_spec p 0) as [Hz | Hnz].
  - intros Hin. destruct (IH Hin) as (q & Hq & Hrest).
    exists q. split; [now right | exact Hrest].
  - destruct (GetCString m (Z.lor p tagPtrMask)) as [str | e] eqn:Hstr;
      [| contradiction].
    intros [<- | Hin].
    + exists p. split; [now left | now split].
    + destruct (getTag p =? 23); [| contradiction].
      destruct (IH Hin) as (q & Hq & Hrest).
      exists q. split; [now right | exact Hrest].
Qed.

Lemma scanForDefault_provenance (m : File) (ptrs : list Z) (s : string) :
  In s (scanForDefault m ptrs) ->
  exists p, In p ptrs /\ p <> 0 /\ GetCString m (Z.lor p tagPtrMask) = Ok s.
Proof.
  induction ptrs as [| p rest IH]; cbn [scanForDefault]; [contradiction |].
  change (withTagMask p) with (Z.lor p tagPtrMask); change (tag p) with (getTag p).
  assert (Hskip : In s (scanForDefault m rest) ->
                  exists q, In q (p :: rest) /\ q <> 0 /\
                            GetCString m (Z.lor q tagPtrMask) = Ok s).
  { intros Hin. destruct (IH Hin) as (q & Hq & Hrest).
    exists q. split; [now right | exact Hrest]. }
  destruct (Z.eqb_spec p 0) as [Hz | Hnz]; [exact Hskip |].
  destruct (GetCString m (Z.lor p tagPtrMask)) as [str | e] eqn:Hstr;
    [| exact Hskip].
  destruct (String.eqb str "default"); [| exact Hskip].
  intros [<- | Hin].
  - exists p. split; [now left | now split].
  - destruct (getTag p =? 23); [| contradiction].
    destruct (collectRun_provenance m rest s Hin) as (q & Hq & Hrest).
    exists q. split; [now right | exact Hrest].
Qed.

Lemma scanForDefault_head (m : File) (ptrs : list Z) (s : string)
    (rest : list string) :
  scanForDefault m ptrs = s :: rest -> s = "default"%string.
Proof.
  induction ptrs as [| p ptrs IH]; cbn [scanForDefault]; [discriminate |].
  change (withTagMask p) with (Z.lor p tagPtrMask); change (tag p) with (getTag p).
  destruct (p =? 0); [exact IH |].
  destruct (GetCString m (Z.lor p tagPtrMask)) as [str | e]; [| exact IH].
  destruct (String.eqb_spec str "default") as [-> | Hne]; [| exact IH].
  intros Heq. apply (f_equal (hd EmptyString)) in Heq.
  cbn [hd] in Heq. now symmetry.
Qed.

Lemma GetSandboxOpts_inv (m : File) (opts : list string) :
  GetSandboxOpts m = Ok opts ->
  (FSection m "__DATA_CONST" "__const" = None /\ opts = []) \/
  (exists dconst ptrs,
      FSection m "__DATA_CONST" "__const" = Some dconst /\
      readPtrs dconst = Ok ptrs /\
      opts = scanForDefault m ptrs).
Proof.
  unfold GetSandboxOpts. intros Hrun.
  destruct (FSection m "__DATA_CONST" "__const") as [sec |].
  - right. destruct (readPtrs sec) as [ptrs | e] eqn:Hread; cbn [bind] in Hrun;
      [| discriminate].
    injection Hrun as <-. exists sec, ptrs.
    split; [reflexivity |]. split; [exact Hread |].
    now rewrite sandboxLoop_search.
  - left. injection Hrun as <-. now split.
Qed.

(** X11: a non-empty result of [GetSandboxOpts] begins with "default":
    nothing is collected before that string is seen. *)
Theorem GetSandboxOpts_head_default (m : File) (s : string)
    (rest : list string) :
  GetSandboxOpts m = Ok (s :: rest) ->
  s = "default"%string.
Proof.
  intros Hrun. apply GetSandboxOpts_inv in Hrun.
  destruct Hrun as [[_ Hnil] | (sec & ptrs & _ & _ & Hscan)]; [discriminate |].
  symmetry in Hscan. now apply scanForDefault_head in Hscan.
Qed.

Lemma GetSandboxOpts_head_default_witness :
  GetSandboxOpts Example.sandboxImage = Ok ["default"; "read"; "write"]%string /\
  hd EmptyString ["default"; "read"; "write"]%string = "default"%string.
Proof.
  split; [reflexivity |].
  apply (GetSandboxOpts_head_default Example.sandboxImage
           (hd EmptyString ["default"; "read"; "write"]%string)
           ["read"; "write"]%string).
  reflexivity.
Defined.

(** X12: every string returned by [GetSandboxOpts] was read by [GetCString]
    at [p | tagPtrMask] for a non-zero entry [p] of the pointer array of
    (__DATA_CONST, __const). *)
Theorem GetSandboxOpts_provenance (m : File) (opts : list string) (s : string) :
  GetSandboxOpts m = Ok opts ->
  In s opts ->
  exists dconst ptrs p,
    FSection m "__DATA_CONST" "__const" = Some dconst /\
    readPtrs dconst = Ok ptrs /\
    In p ptrs /\ p <> 0 /\
    GetCString m (Z.lor p tagPtrMask) = Ok s.
Proof.
  intros Hrun Hin. apply GetSandboxOpts_inv in Hrun.
  destruct Hrun as [[_ ->] | (sec & ptrs & Hsec & Hread & ->)]; [contradiction |].
  destruct (scanForDefault_provenance m ptrs s Hin) as (p & Hp & Hnz & Hstr).
  exists sec, ptrs, p. now repeat split.
Qed.

Lemma GetSandboxOpts_provenance_witness :
  exists dconst ptrs p,
    FSection Example.sandboxImage "__DATA_CONST" "__const" = Some dconst /\
    readPtrs dconst = Ok ptrs /\
    In p ptrs /\ p <> 0 /\
    GetCString Example.sandboxImage (Z.lor p tagPtrMask) = Ok "read"%string.
Proof.
  apply (GetSandboxOpts_provenance Example.sandboxImage
           ["default"; "read"; "write"]%string "read"%string).
  - reflexivity.
  - simpl. tauto.
Defined.

(** X13: [GetSandboxOpts] fails only when reading the pointer array of
    (__DATA_CONST, __const) fails; a [GetCString] that fails is never
    reported to the caller. *)
Theorem GetSandboxOpts_error_origin (m : File) (e : error) :
  GetSandboxOpts m = Err e ->
  exists dconst,
    FSection m "__DATA_CONST" "__const" = Some dconst /\
    readPtrs dconst = Err e.
Proof.
  unfold GetSandboxOpts. intros Hrun.
  destruct (FSection m "__DATA_CONST" "__const") as [sec |]; [| discriminate].
  destruct (readPtrs sec) as [ptrs | e'] eqn:Hread; cbn [bind] in Hrun;
    [discriminate |].
  injection Hrun as ->. exists sec. now split.
Qed.

Lemma scanForDefault_stop (m : File) (pre post : list Z) (p : Z) :
  neverDefault m pre ->
  p <> 0 ->
  GetCString m (Z.lor p tagPtrMask) = Ok "default"%string ->
  getTag p <> 0x17 ->
  scanForDefault m (pre ++ p :: post) = ["default"%string].
Proof.
  intros Hpre Hnz Hstr Htag.
  induction pre as [| q pre IH]; cbn [app scanForDefault].
  - change (withTagMask p) with (Z.lor p tagPtrMask); change (tag p) with (getTag p).
    destruct (Z.eqb_spec p 0); [contradiction |].
    rewrite Hstr. cbn [String.eqb Ascii.eqb Bool.eqb].
    destruct (Z.eqb_spec (getTag p) 23); [contradiction | reflexivity].
  - change (withTagMask q) with (Z.lor q tagPtrMask);
      change (tag q) with (getTag q).
    assert (Hrest : neverDefault m pre).
    { intros r Hr. apply Hpre. now right. }
    destruct (Z.eqb_spec q 0) as [Hz | Hqnz]; [now apply IH |].
    pose proof (Hpre q (or_introl eq_refl) Hqnz) as Hq.
    destruct (GetCString m (Z.lor q tagPtrMask)) as [str | e]; [| now apply IH].
    destruct (String.eqb_spec str "default") as [Heq | Hne]; [| now apply IH].
    subst str. now contradiction Hq.
Qed.

(** X14: when the pointer that dereferences to "default" does not carry tag
    0x17, the result is exactly ["default"], whatever follows it in the
    array. *)
Theorem GetSandboxOpts_stops_at_default (m : File) (dconst : MSection)
    (pre post : list Z) (p : Z) :
  FSection m "__DATA_CONST" "__const" = Some dconst ->
  readPtrs dconst = Ok (pre ++ p :: post) ->
  neverDefault m pre ->
  p <> 0 ->
  GetCString m (Z.lor p tagPtrMask) = Ok "default"%string ->
  getTag p <> 0x17 ->
  GetSandboxOpts m = Ok ["default"%string].
Proof.
  intros Hsec Hread Hpre Hnz Hstr Htag.
  unfold GetSandboxOpts. rewrite Hsec, Hread. cbn [bind].
  rewrite sandboxLoop_search. cbn [app].
  now rewrite scanForDefault_stop.
Qed.

Lemma GetSandboxOpts_stops_at_default_witness :
  GetSandboxOpts Example.stopImage = Ok ["default"%string].
Proof.
  apply (GetSandboxOpts_stops_at_default Example.stopImage
           (Example.section_of
              (Example.packed [Example.tagged 0x17 0x1000; 0;
                               Example.tagged 0x03 0x1020;
                               Example.tagged 0x17 0x1030]))
           [Example.tagged 0x17 0x1000; 0] [Example.tagged 0x17 0x1030]
           (Example.tagged 0x03 0x1020)).
  - reflexivity.
  - reflexivity.
  - intros q [<- | [<- | []]] Hq; [vm_compute; discriminate | now contradiction Hq].
  - vm_compute. discriminate.
  - reflexivity.
  - vm_compute. discriminate.
Defined.

Lemma GetSandboxOpts_error_origin_witness :
  exists dconst,
    FSection Example.brokenConstImage "__DATA_CONST" "__const" = Some dconst /\
    readPtrs dconst = Err (LibError "read failed").
Proof.
  apply (GetSandboxOpts_error_origin Example.brokenConstImage). reflexivity.
Defined.

(** ** The profile scan *)

Lemma hasPrefix_length (s sep : list byte) :
  hasPrefix s sep = true -> (List.length sep <= List.length s)%nat.
Proof.
  revert s. induction sep as [| x sep IH]; intros s Hp; cbn [List.length]; [lia |].
  destruct s as [| y s]; cbn [hasPrefix] in Hp; [discriminate |].
  apply andb_true_iff in Hp. destruct Hp as [_ Hp].
  apply IH in Hp. cbn [List.length]. lia.
Qed.

Lemma bytes_Index_bound (s sep : list byte) (i : nat) :
  bytes_Index s sep = Some i ->
  (i + List.length sep <= List.length s)%nat.
Proof.
  revert i. induction s as [| y s IH]; intros i; cbn [bytes_Index].
  - destruct (hasPrefix [] sep) eqn:Hp; [| discriminate].
    intros Hi. injection Hi as <-. now apply hasPrefix_length in Hp.
  - destruct (hasPrefix (y :: s) sep) eqn:Hp.
    + intros Hi. injection Hi as <-. now apply hasPrefix_length in Hp.
    + destruct (bytes_Index s sep) as [j |]; cbn [option_map]; [| discriminate].
      intros Hi. injection Hi as <-. specialize (IH j eq_refl).
      cbn [List.length]. lia.
Qed.

Lemma profilesLoop_ends (fuel : nat) (data : list byte) (index : nat) :
  (index <= List.length data)%nat ->
  (List.length data - index < fuel)%nat ->
  exists idx,
    profilesLoop fuel data index = Some (inl idx) /\
    (index <= idx <= List.length data)%nat /\
    bytes_Index (skipn idx data) [x00; x80] = None.
Proof.
  revert index. induction fuel as [| k IH]; intros index Hin Hfuel; [lia |].
  cbn [profilesLoop].
  destruct (Nat.ltb_spec (List.length data) index); [lia |].
  destruct (bytes_Index (skipn index data) [x00; x80]) as [found |] eqn:Hfound.
  - apply bytes_Index_bound in Hfound.
    rewrite length_skipn in Hfound. cbn [List.length] in Hfound.
    destruct (IH (index + found + 1)%nat) as (idx & Hrun & Hidx & Hnone);
      [lia | lia |].
    exists idx. split; [exact Hrun |]. split; [lia | exact Hnone].
  - exists index. split; [reflexivity |]. split; [lia | exact Hfound].
Qed.

(** X15: on a readable section (__TEXT, __const) the loop of
    [GetSandboxProfiles] ends after at most one pass per byte, never slices
    past the end of the data, and leaves no marker 00 80 at or after the
    index where it stops; the function then returns the empty slice and no
    error. *)
Theorem GetSandboxProfiles_returns_empty (fuel : nat) (m : File)
    (tConst : MSection) (data : list byte) :
  FSection m "__TEXT" "__const" = Some tConst ->
  Data tConst = Ok data ->
  (List.length data < fuel)%nat ->
  GetSandboxProfiles fuel m = Some (inl (Ok [])) /\
  exists idx,
    profilesLoop fuel data 0 = Some (inl idx) /\
    (idx <= List.length data)%nat /\
    bytes_Index (skipn idx data) [x00; x80] = None.
Proof.
  intros Hsec Hdata Hfuel.
  destruct (profilesLoop_ends fuel data 0) as (idx & Hrun & Hidx & Hnone);
    [lia | lia |].
  split.
  - unfold GetSandboxProfiles. now rewrite Hsec, Hdata, Hrun.
  - exists idx. split; [exact Hrun |]. split; [lia | exact Hnone].
Qed.

Lemma GetSandboxProfiles_returns_empty_witness :
  GetSandboxProfiles 11 Example.textImage = Some (inl (Ok [])) /\
  exists idx,
    profilesLoop 11 [x01; x00; x80; x02; x00; x80; x00; x00; x00; x80] 0
    = Some (inl idx) /\
    (idx <= 10)%nat /\
    bytes_Index (skipn idx [x01; x00; x80; x02; x00; x80; x00; x00; x00; x80])
      [x00; x80] = None.
Proof.
  refine (GetSandboxProfiles_returns_empty 11 Example.textImage
            (Example.section_of [x01; x00; x80; x02; x00; x80; x00; x00; x00; x80])
            [x01; x00; x80; x02; x00; x80; x00; x00; x00; x80] _ _ _).
  - reflexivity.
  - reflexivity.
  - simpl. lia.
Defined.

(** ** The listing, continued *)

Lemma trimLeft0_repeat (j : nat) (l : list byte) :
  trimLeft0 (repeat x00 j ++ l) = trimLeft0 l.
Proof.
  induction j as [| j IH]; [reflexivity | exact IH].
Qed.

Lemma trimLeft0_nonzero (b : byte) (l : list byte) :
  b <> x00 -> trimLeft0 (b :: l) = b :: l.
Proof.
  intros Hb. destruct b; try reflexivity. now contradiction Hb.
Qed.

Lemma zeros_or_nonzero (d : list byte) :
  (exists n, d = repeat x00 n) \/
  (exists n b d', b <> x00 /\ d = repeat x00 n ++ b :: d').
Proof.
  induction d as [| a d IH].
  - left. now exists 0%nat.
  - destruct (Byte.byte_eq_dec a x00) as [-> | Ha].
    + destruct IH as [(n & ->) | (n & b & d' & Hb & ->)].
      * left. now exists (S n).
      * right. now exists (S n), b, d'.
    + right. now exists 0%nat, a, d.
Qed.

Lemma bytes_Trim0_padding (j k : nat) (d : list byte) :
  bytes_Trim0 (repeat x00 j ++ d ++ repeat x00 k) = bytes_Trim0 d.
Proof.
  unfold bytes_Trim0. rewrite trimLeft0_repeat.
  destruct (zeros_or_nonzero d) as [(n & ->) | (n & b & d' & Hb & ->)].
  - rewrite <- repeat_app.
    rewrite <- (app_nil_r (repeat x00 (n + k))), <- (app_nil_r (repeat x00 n)).
    now rewrite !trimLeft0_repeat.
  - rewrite <- app_assoc. cbn [app].
    rewrite !trimLeft0_repeat, !(trimLeft0_nonzero b) by exact Hb.
    change (b :: d' ++ repeat x00 k) with ((b :: d') ++ repeat x00 k).
    now rewrite rev_app_distr, rev_repeat, trimLeft0_repeat.
Qed.

(** X16: NUL bytes around the plist of (__PRELINK_INFO, __info) do not
    change the listing: two images with the same start addresses whose info
    sections differ only by leading and trailing NUL bytes list alike. *)
Theorem KextList_NUL_padding
    (Open Open' : string -> result File)
    (plist_Decode : list byte -> result PrelinkInfo)
    (kernel : string) (m m' : File) (infoSec infoSec' : MSection)
    (d : list byte) (j k : nat) :
  Open kernel = Ok m ->
  Open' kernel = Ok m' ->
  getKextStartVMAddrs m' = getKextStartVMAddrs m ->
  FSection m "__PRELINK_INFO" "__info" = Some infoSec ->
  FSection m' "__PRELINK_INFO" "__info" = Some infoSec' ->
  Data infoSec = Ok d ->
  Data infoSec' = Ok (repeat x00 j ++ d ++ repeat x00 k) ->
  KextList Open' plist_Decode kernel = KextList Open plist_Decode kernel.
Proof.
  intros Hopen Hopen' Hget Hsec Hsec' Hdata Hdata'.
  unfold KextList.
  rewrite Hopen, Hopen', Hget, Hsec, Hsec', Hdata, Hdata'.
  now rewrite bytes_Trim0_padding.
Qed.

Lemma KextList_NUL_padding_witness :
  KextList (Example.open Example.paddedImage)
    (Example.decoder [Example.bundleA]) "kernelcache"
  = KextList (Example.open Example.prelinkImage)
      (Example.decoder [Example.bundleA]) "kernelcache".
Proof.
  refine (KextList_NUL_padding
            (Example.open Example.prelinkImage) (Example.open Example.paddedImage)
            (Example.decoder [Example.bundleA]) "kernelcache"
            Example.prelinkImage Example.paddedImage
            (Example.section_of Example.plistBytes)
            (Example.section_of
               (repeat x00 3 ++ [x3c; x3f; x78; x6d; x6c] ++ repeat x00 11))
            Example.plistBytes 3 8 _ _ _ _ _ _ _); reflexivity.
Defined.

Lemma lor_mask_range (p : Z) :
  0 <= p < 2 ^ 64 ->
  0xffff000000000000 <= Z.lor p tagPtrMask < 2 ^ 64.
Proof.
  intros Hp. rewrite lor_mask_arith by exact Hp.
  pose proof (Z.mod_pos_bound p (2 ^ 48) ltac:(lia)). lia.
Qed.

Lemma Forall_nth_default {A : Type} (P : A -> Prop) (l : list A) (n : nat) (d : A) :
  Forall P l -> P d -> P (nth n l d).
Proof.
  intros Hall Hd. revert n. induction Hall as [| x l Hx _ IH]; intros n.
  - now destruct n.
  - destruct n as [| n]; [exact Hx | apply IH].
Qed.

Lemma getKextStartVMAddrs_range (m : File) (addrs : list Z) :
  getKextStartVMAddrs m = Ok addrs ->
  Forall (fun p => 0 <= p < 2 ^ 64) addrs.
Proof.
  unfold getKextStartVMAddrs.
  destruct (FSection m "__PRELINK_INFO" "__kmod_start") as [sec |];
    [| discriminate].
  intros Hread. apply readPtrs_inv in Hread.
  destruct Hread as (data & _ & _ & ->). apply le_words_range.
Qed.

Lemma printBundles_lines (addrs : list Z) (bundles : list CFBundle)
    (line : printed) :
  In line (fst (printBundles addrs bundles)) ->
  exists b, In b bundles /\ line = entry addrs b.
Proof.
  destruct (printBundles_cases addrs bundles)
    as [[_ Hrun] | (pre & b' & post & -> & _ & _ & Hrun)];
    rewrite Hrun; cbn [fst]; intros Hin; apply in_map_iff in Hin;
    destruct Hin as (b & <- & Hb); exists b; split; try reflexivity.
  - exact Hb.
  - apply in_or_app. now left.
Qed.

Lemma KextList_lines
    (Open : string -> result File)
    (plist_Decode : list byte -> result PrelinkInfo)
    (kernel : string) :
  fst (KextList Open plist_Decode kernel) = [] \/
  exists m addrs bundles,
    Open kernel = Ok m /\
    getKextStartVMAddrs m = Ok addrs /\
    fst (KextList Open plist_Decode kernel)
    = Println_FOUND (List.length bundles) :: fst (printBundles addrs bundles).
Proof.
  unfold KextList.
  destruct (Open kernel) as [m | e]; [| now left].
  destruct (getKextStartVMAddrs m) as [addrs | e] eqn:Hget; [| now left].
  destruct (FSection m "__PRELINK_INFO" "__info") as [infoSec |]; [| now left].
  destruct (Data infoSec) as [data | e]; [| now left].
  destruct (plist_Decode (bytes_Trim0 data)) as [prelink | e]; [| now left].
  right. exists m, addrs, (PrelinkInfoDictionary prelink).
  split; [reflexivity |]. split; [exact Hget |].
  now destruct (printBundles addrs (PrelinkInfoDictionary prelink)).
Qed.

(** X17: every load address that [KextList] prints is either 0 or a 64-bit
    value with its top 16 bits all ones (in [0xffff000000000000, 2^64)),
    whatever the image holds. *)
Theorem KextList_addresses_canonical
    (Open : string -> result File)
    (plist_Decode : list byte -> result PrelinkInfo)
    (kernel : string) (addr : Z) (id version : string) :
  In (Printf_kext addr id version) (fst (KextList Open plist_Decode kernel)) ->
  addr = 0 \/ 0xffff000000000000 <= addr < 2 ^ 64.
Proof.
  intros Hin.
  destruct (KextList_lines Open plist_Decode kernel)
    as [Hnil | (m & addrs & bundles & _ & Hget & Hlines)].
  - rewrite Hnil in Hin. contradiction.
  - rewrite Hlines in Hin. destruct Hin as [Hhead | Hin]; [discriminate |].
    apply printBundles_lines in Hin. destruct Hin as (b & _ & Hline).
    unfold entry in Hline. injection Hline as -> _ _.
    destruct (OSKernelResource b); [now left | right].
    apply lor_mask_range.
    apply Forall_nth_default; [| lia].
    now apply getKextStartVMAddrs_range in Hget.
Qed.

Lemma KextList_addresses_canonical_witness :
  0xFFFF000012340000 = 0 \/ 0xffff000000000000 <= 0xFFFF000012340000 < 2 ^ 64.
Proof.
  apply (KextList_addresses_canonical
           (Example.open Example.prelinkImage)
           (Example.decoder [Example.bundleA; Example.bundleB])
           "kernelcache" 0xFFFF000012340000 "com.example.test" "1.0").
  simpl. tauto.
Defined.

(** X18: [KextList] reads two sections and nothing else: images that agree
    on (__PRELINK_INFO, __kmod_start) and (__PRELINK_INFO, __info) list
    alike, whatever their other sections, address maps, file contents and
    C strings. *)
Theorem KextList_frame
    (Open Open' : string -> result File)
    (plist_Decode : list byte -> result PrelinkInfo)
    (kernel : string) (m m' : File) :
  Open kernel = Ok m ->
  Open' kernel = Ok m' ->
  FSection m' "__PRELINK_INFO" "__kmod_start"
  = FSection m "__PRELINK_INFO" "__kmod_start" ->
  FSection m' "__PRELINK_INFO" "__info" = FSection m "__PRELINK_INFO" "__info" ->
  KextList Open' plist_Decode kernel = KextList Open plist_Decode kernel.
Proof.
  intros Hopen Hopen' Hstart Hinfo.
  unfold KextList, getKextStartVMAddrs.
  now rewrite Hopen, Hopen', Hstart, Hinfo.
Qed.

Lemma KextList_frame_witness :
  KextList (Example.open Example.richImage)
    (Example.decoder [Example.bundleA]) "kernelcache"
  = KextList (Example.open Example.prelinkImage)
      (Example.decoder [Example.bundleA]) "kernelcache".
Proof.
  refine (KextList_frame
            (Example.open Example.prelinkImage) (Example.open Example.richImage)
            (Example.decoder [Example.bundleA]) "kernelcache"
            Example.prelinkImage Example.richImage _ _ _ _); reflexivity.
Defined.

(** X19: when [KextList] returns an error it has printed nothing, and the
    error is that of [macho.Open], of [getKextStartVMAddrs], of the
    [Data()] of the info section, or of the plist decoder; the loop over the
    bundles returns no error. *)
Theorem KextList_error_origin
    (Open : string -> result File)
    (plist_Decode : list byte -> result PrelinkInfo)
    (kernel : string) (out : list printed) (e : error) :
  KextList Open plist_Decode kernel = (out, Returned (Some e)) ->
  out = [] /\
  (Open kernel = Err e \/
   exists m,
     Open kernel = Ok m /\
     (getKextStartVMAddrs m = Err e \/
      exists infoSec,
        FSection m "__PRELINK_INFO" "__info" = Some infoSec /\
        (Data infoSec = Err e \/
         exists data,
           Data infoSec = Ok data /\
           plist_Decode (bytes_Trim0 data) = Err e))).
Proof.
  unfold KextList. intros Hrun.
  destruct (Open kernel) as [m | e0].
  2: { injection Hrun as <- <-. split; [reflexivity | now left]. }
  destruct (getKextStartVMAddrs m) as [addrs | e0] eqn:Hget.
  2: { injection Hrun as <- <-. split; [reflexivity |].
       right. exists m. split; [reflexivity | now left]. }
  destruct (FSection m "__PRELINK_INFO" "__info") as [infoSec |] eqn:Hsec;
    [| discriminate].
  destruct (Data infoSec) as [data | e0] eqn:Hdata.
  2: { injection Hrun as <- <-. split; [reflexivity |].
       right. exists m. split; [reflexivity |]. right.
       exists infoSec. split; [exact Hsec | now left]. }
  destruct (plist_Decode (bytes_Trim0 data)) as [prelink | e0] eqn:Hdec.
  2: { injection Hrun as <- <-. split; [reflexivity |].
       right. exists m. split; [reflexivity |]. right.
       exists infoSec. split; [exact Hsec |]. right.
       exists data. now split. }
  exfalso.
  destruct (printBundles_cases addrs (PrelinkInfoDictionary prelink))
    as [[_ Hp] | (pre & b & post & _ & _ & _ & Hp)];
    rewrite Hp in Hrun; discriminate.
Qed.

Lemma KextList_error_origin_witness :
  KextList (Example.open Example.prelinkImage) Example.failingDecoder "kernelcache"
  = ([], Returned (Some (LibError "plist: invalid"))) /\
  [] = @nil printed /\
  (Example.open Example.prelinkImage "kernelcache"
   = Err (LibError "plist: invalid") \/
   exists m,
     Example.open Example.prelinkImage "kernelcache" = Ok m /\
     (getKextStartVMAddrs m = Err (LibError "plist: invalid") \/
      exists infoSec,
        FSection m "__PRELINK_INFO" "__info" = Some infoSec /\
        (Data infoSec = Err (LibError "plist: invalid") \/
         exists data,
           Data infoSec = Ok data /\
           Example.failingDecoder (bytes_Trim0 data)
           = Err (LibError "plist: invalid")))).
Proof.
  split; [reflexivity |].
  apply (KextList_error_origin
           (Example.open Example.prelinkImage) Example.failingDecoder
           "kernelcache" []).
  reflexivity.
Defined.

(** ** The layout of a kmod_info record *)

Lemma field_mid (big pre x post : list byte) (off w : nat) :
  big = pre ++ x ++ post ->
  List.length pre = off ->
  List.length x = w ->
  field off w big = x.
Proof.
  intros -> <- <-. unfold field.
  rewrite skipn_app, Nat.sub_diag, skipn_all. cbn [skipn app].
  rewrite firstn_app, Nat.sub_diag, firstn_all. cbn [firstn].
  apply app_nil_r.
Qed.

(** X20: the record is decoded as twelve fields packed without padding, in
    the order of the struct and with widths 8, 4, 4, 64, 64, 4, 8, 8, 8, 8,
    8, 8 (196 bytes in all): from the concatenation of twelve fields of
    these widths each field is read back from its own bytes, and bytes after
    the twelfth field are not read. *)
Theorem decode_KmodInfoT_layout
    (next iv id name ver rc rl addr sz hs start stop tail : list byte) :
  List.length next = 8%nat -> List.length iv = 4%nat ->
  List.length id = 4%nat -> List.length name = 64%nat ->
  List.length ver = 64%nat -> List.length rc = 4%nat ->
  List.length rl = 8%nat -> List.length addr = 8%nat ->
  List.length sz = 8%nat -> List.length hs = 8%nat ->
  List.length start = 8%nat -> List.length stop = 8%nat ->
  decode_KmodInfoT
    (next ++ iv ++ id ++ name ++ ver ++ rc ++ rl ++ addr ++ sz ++ hs
     ++ start ++ stop ++ tail)
  = {| Kmod.NextAddr := le_uint next;
       Kmod.InfoVersion := I32.of_bits (le_uint iv);
       Kmod.ID := le_uint id;
       Kmod.Name := name;
       Kmod.Version := ver;
       Kmod.ReferenceCount := I32.of_bits (le_uint rc);
       Kmod.ReferenceListAddr := le_uint rl;
       Kmod.Address := le_uint addr;
       Kmod.Size := le_uint sz;
       Kmod.HeaderSize := le_uint hs;
       Kmod.StartAddr := le_uint start;
       Kmod.StopAddr := le_uint stop |} /\
  List.length (next ++ iv ++ id ++ name ++ ver ++ rc ++ rl ++ addr ++ sz
               ++ hs ++ start ++ stop) = KmodInfoT_size.
Proof.
  intros H1 H2 H3 H4 H5 H6 H7 H8 H9 H10 H11 H12.
  split; [| rewrite !length_app; unfold KmodInfoT_size; lia].
  set (big := next ++ iv ++ id ++ name ++ ver ++ rc ++ rl ++ addr ++ sz ++ hs
              ++ start ++ stop ++ tail).
  assert (F1 : field 0 8 big = next).
  { apply (field_mid big [] next (iv ++ id ++ name ++ ver ++ rc ++ rl ++ addr
                                  ++ sz ++ hs ++ start ++ stop ++ tail));
      [reflexivity | reflexivity | exact H1]. }
  assert (F2 : field 8 4 big = iv).
  { apply (field_mid big next iv (id ++ name ++ ver ++ rc ++ rl ++ addr ++ sz
                                  ++ hs ++ start ++ stop ++ tail));
      [reflexivity | exact H1 | exact H2]. }
  assert (F3 : field 12 4 big = id).
  { apply (field_mid big (next ++ iv) id
             (name ++ ver ++ rc ++ rl ++ addr ++ sz ++ hs ++ start ++ stop ++ tail));
      [subst big; now rewrite <- !app_assoc | rewrite !length_app; lia | exact H3]. }
  assert (F4 : field 16 64 big = name).
  { apply (field_mid big (next ++ iv ++ id) name
             (ver ++ rc ++ rl ++ addr ++ sz ++ hs ++ start ++ stop ++ tail));
      [subst big; now rewrite <- !app_assoc | rewrite !length_app; lia | exact H4]. }
  assert (F5 : field 80 64 big = ver).
  { apply (field_mid big (next ++ iv ++ id ++ name) ver
             (rc ++ rl ++ addr ++ sz ++ hs ++ start ++ stop ++ tail));
      [subst big; now rewrite <- !app_assoc | rewrite !length_app; lia | exact H5]. }
  assert (F6 : field 144 4 big = rc).
  { apply (field_mid big (next ++ iv ++ id ++ name ++ ver) rc
             (rl ++ addr ++ sz ++ hs ++ start ++ stop ++ tail));
      [subst big; now rewrite <- !app_assoc | rewrite !length_app; lia | exact H6]. }
  assert (F7 : field 148 8 big = rl).
  { apply (field_mid big (next ++ iv ++ id ++ name ++ ver ++ rc) rl
             (addr ++ sz ++ hs ++ start ++ stop ++ tail));
      [subst big; now rewrite <- !app_assoc | rewrite !length_app; lia | exact H7]. }
  assert (F8 : field 156 8 big = addr).
  { apply (field_mid big (next ++ iv ++ id ++ name ++ ver ++ rc ++ rl) addr
             (sz ++ hs ++ start ++ stop ++ tail));
      [subst big; now rewrite <- !app_assoc | rewrite !length_app; lia | exact H8]. }
  assert (F9 : field 164 8 big = sz).
  { apply (field_mid big (next ++ iv ++ id ++ name ++ ver ++ rc ++ rl ++ addr) sz
             (hs ++ start ++ stop ++ tail));
      [subst big; now rewrite <- !app_assoc | rewrite !length_app; lia | exact H9]. }
  assert (F10 : field 172 8 big = hs).
  { apply (field_mid big
             (next ++ iv ++ id ++ name ++ ver ++ rc ++ rl ++ addr ++ sz) hs
             (start ++ stop ++ tail));
      [subst big; now rewrite <- !app_assoc | rewrite !length_app; lia | exact H10]. }
  assert (F11 : field 180 8 big = start).
  { apply (field_mid big
             (next ++ iv ++ id ++ name ++ ver ++ rc ++ rl ++ addr ++ sz ++ hs)
             start (stop ++ tail));
      [subst big; now rewrite <- !app_assoc | rewrite !length_app; lia | exact H11]. }
  assert (F12 : field 188 8 big = stop).
  { apply (field_mid big
             (next ++ iv ++ id ++ name ++ ver ++ rc ++ rl ++ addr ++ sz ++ hs
              ++ start) stop tail);
      [subst big; now rewrite <- !app_assoc | rewrite !length_app; lia | exact H12]. }
  unfold decode_KmodInfoT.
  now rewrite F1, F2, F3, F4, F5, F6, F7, F8, F9, F10, F11, F12.
Qed.

Lemma decode_KmodInfoT_layout_witness :
  Kmod.Address (decode_KmodInfoT Example.recordBytes) = 0x12340000 /\
  Kmod.ReferenceCount (decode_KmodInfoT Example.recordBytes) = -1 /\
  Kmod.StopAddr (decode_KmodInfoT Example.recordBytes) = 0x8010000012345700.
Proof.
  pose proof (decode_KmodInfoT_layout
                (Example.le_bytes 8 0) (Example.le_bytes 4 1)
                (Example.le_bytes 4 7) (repeat x41 64) (repeat x31 64)
                (Example.le_bytes 4 (2 ^ 32 - 1)) (Example.le_bytes 8 0)
                (Example.le_bytes 8 0x12340000) (Example.le_bytes 8 0x8000)
                (Example.le_bytes 8 0x1000)
                (Example.le_bytes 8 0x8010000012345678)
                (Example.le_bytes 8 0x8010000012345700) []
                eq_refl eq_refl eq_refl eq_refl eq_refl eq_refl
                eq_refl eq_refl eq_refl eq_refl eq_refl eq_refl) as [Hdec _].
  match type of Hdec with
  | _ = ?r => change (decode_KmodInfoT Example.recordBytes = r) in Hdec
  end.
  rewrite Hdec. repeat split.
Defined.
